(** * naits_server: presence engine, ad lifecycle and cascading deletes

    A shallow embedding of the request handlers and background tasks of
    [users.py], [sponsored_ads.py] and [faculty_wear.py], followed by the
    properties of the presence state machine and of the ad lifecycle.

    Modelling conventions.
    - A [datetime] is the number of microseconds since the epoch, an
      integer in [Z]; a [timedelta] is a number of microseconds.  The range
      limit of [datetime] (year 9999) is not modelled.
    - [timedelta.total_seconds() / 60] is a Python float; it is modelled by
      the exact rational in [Q].  For ages below several decades the float
      quotient is ordered against an integer threshold exactly as the
      rational one is.
    - A handler is a computation over the collection it works on.  An
      exception raised inside a [try] block leaves the writes made before
      it in place, so the state is threaded through failures as well:
      [M S A := S -> (exn + A) * S].
    - The document store, the asset store, the password hash and the clock
      are collaborators.  A store call either answers or raises, following
      the fault schedule carried by the collection, and a call that raises
      writes nothing; the asset store is a function from a public
      identifier to an outcome; clock readings are arguments of the
      handlers.
    - Log lines of [current_app.logger] are not modelled; what a background
      task prints is its result. *)

From Stdlib Require Import ZArith QArith Bool List String Ascii Lia Permutation.
From Stdlib Require Import Sorted.
Import ListNotations.

Local Open Scope string_scope.
Local Open Scope Z_scope.

(** ** Exceptions and the handler monad *)

Inductive exn : Type :=
| InvalidId                       (* bson.errors.InvalidId *)
| PyMongoError                    (* a store call failed *)
| CloudinaryError                 (* an asset-store call failed *)
| ValueError                      (* int() on a malformed form field *)
| IndexError                      (* list index out of range *)
| BadRequest (msg : string)       (* werkzeug.exceptions.BadRequest *)
| NotFound (msg : string)         (* werkzeug.exceptions.NotFound *)
| RegexOutsideFragment.           (* not a Python exception: see [Regex] *)

(** [str(e)], the text a handler puts in its error response. *)
Definition str (e : exn) : string :=
  match e with
  | InvalidId => "not a valid ObjectId"
  | PyMongoError => "store operation failed"
  | CloudinaryError => "asset store operation failed"
  | ValueError => "invalid literal for int()"
  | IndexError => "list index out of range"
  | BadRequest msg => msg
  | NotFound msg => msg
  | RegexOutsideFragment => "pattern outside the modelled fragment"
  end.

Definition M (S A : Type) : Type := S -> (exn + A) * S.

Definition ret {S A} (a : A) : M S A := fun s => (inr a, s).

Definition bind {S A B} (m : M S A) (k : A -> M S B) : M S B :=
  fun s => match m s with
           | (inr a, s') => k a s'
           | (inl e, s') => (inl e, s')
           end.

Definition raise {S A} (e : exn) : M S A := fun s => (inl e, s).

(** [try: body  except Exception as e: handler(e)] *)
Definition try_except {S A} (body : M S A) (handler : exn -> M S A) : M S A :=
  fun s => match body s with
           | (inr a, s') => (inr a, s')
           | (inl e, s') => handler e s'
           end.

Declare Scope py_scope.
Delimit Scope py_scope with py.
Notation "x <- m ;; k" := (bind m (fun x => k))
  (at level 61, m at next level, right associativity) : py_scope.
Notation "m ;;; k" := (bind m (fun _ => k))
  (at level 61, right associativity) : py_scope.

(** ** Time *)

Definition datetime := Z.
Definition timedelta := Z.

Definition timedelta_minutes (m : Z) : timedelta := m * 60000000.
Definition timedelta_hours (h : Z) : timedelta := h * 3600000000.
Definition timedelta_days (d : Z) : timedelta := d * 86400000000.

Definition total_seconds (d : timedelta) : Q := Qdiv (inject_Z d) (inject_Z 1000000).

(** [x < y] on the idealised floats. *)
Definition Qltb (x y : Q) : bool := negb (Qle_bool y x).

(** ** The document store *)

Definition oid := nat.
Bind Scope nat_scope with oid.

(** An identifier as it arrives in a URL; [ObjectId(...)] raises on a
    string that is not 24 hexadecimal digits. *)
Inductive path_id : Type :=
| WellFormed (i : oid)
| Malformed.

Definition ObjectId_is_valid (p : path_id) : bool :=
  match p with WellFormed _ => true | Malformed => false end.

Definition ObjectId {S} (p : path_id) : M S oid :=
  match p with
  | WellFormed i => ret i
  | Malformed => raise InvalidId
  end.

Record update_result : Type := UpdateResult {
  matched_count : nat;
  modified_count : nat
}.

Section Collection.
Variable D : Type.
Variable D_eqb : D -> D -> bool.
Variable D_id : D -> oid.
Variable D_with_id : oid -> D -> D.

(** [docs] in natural (insertion) order; [db_faults] says, for the
    forthcoming store calls in order, whether the call raises; once the
    schedule is used up every call answers. *)
Record collection : Type := Collection {
  docs : list D;
  db_faults : list bool
}.

Definition db_call {A} (op : list D -> A * list D) : M collection A :=
  fun c =>
    match db_faults c with
    | true :: fs => (inl PyMongoError, Collection (docs c) fs)
    | false :: fs =>
        let (a, ds) := op (docs c) in (inr a, Collection ds fs)
    | [] =>
        let (a, ds) := op (docs c) in (inr a, Collection ds [])
    end.

Fixpoint update_first (p : D -> bool) (f : D -> D) (ds : list D) : list D :=
  match ds with
  | [] => []
  | d :: ds' => if p d then f d :: ds' else d :: update_first p f ds'
  end.

Fixpoint remove_first (p : D -> bool) (ds : list D) : list D :=
  match ds with
  | [] => []
  | d :: ds' => if p d then ds' else d :: remove_first p ds'
  end.

Definition fresh_id (ds : list D) : oid :=
  S (fold_right Nat.max 0%nat (map D_id ds)).

Definition changed (f : D -> D) (d : D) : bool := negb (D_eqb (f d) d).

(** The effect of a bulk [$set] on one document. *)
Definition set_where (p : D -> bool) (f : D -> D) (d : D) : D :=
  if p d then f d else d.

Definition find_one (p : D -> bool) : M collection (option D) :=
  db_call (fun ds => (find p ds, ds)).

Definition find_all (p : D -> bool) : M collection (list D) :=
  db_call (fun ds => (filter p ds, ds)).

Definition update_one (p : D -> bool) (f : D -> D) : M collection update_result :=
  db_call (fun ds =>
    (match find p ds with
     | Some d => UpdateResult 1 (if changed f d then 1 else 0)
     | None => UpdateResult 0 0
     end,
     update_first p f ds)).

Definition update_many (p : D -> bool) (f : D -> D) : M collection update_result :=
  db_call (fun ds =>
    (UpdateResult (List.length (filter p ds))
                  (List.length (filter (fun d => p d && changed f d) ds)),
     map (set_where p f) ds)).

(** Returns [deleted_count]. *)
Definition delete_one (p : D -> bool) : M collection nat :=
  db_call (fun ds =>
    (match find p ds with Some _ => 1%nat | None => 0%nat end,
     remove_first p ds)).

(** Returns [inserted_id]. *)
Definition insert_one (d : D) : M collection oid :=
  db_call (fun ds =>
    let i := fresh_id ds in (i, (ds ++ [D_with_id i d])%list)).

Definition has_id (i : oid) (d : D) : bool := Nat.eqb (D_id d) i.

(** The document a point query by identifier would see. *)
Definition lookup (i : oid) (c : collection) : option D :=
  find (has_id i) (docs c).
End Collection.

Arguments Collection {D} _ _.
Arguments docs {D} _.
Arguments db_faults {D} _.
Arguments db_call {D A} _ _.
Arguments update_first {D} _ _ _.
Arguments remove_first {D} _ _.
Arguments fresh_id {D} _ _.
Arguments find_one {D} _ _.
Arguments find_all {D} _ _.
Arguments update_one {D} _ _ _ _.
Arguments update_many {D} _ _ _ _.
Arguments delete_one {D} _ _.
Arguments insert_one {D} _ _ _ _.
Arguments has_id {D} _ _ _.
Arguments lookup {D} _ _ _.
Arguments changed {D} _ _ _.
Arguments set_where {D} _ _ _.

Definition option_eqb {A} (eqb : A -> A -> bool) (x y : option A) : bool :=
  match x, y with
  | Some a, Some b => eqb a b
  | None, None => true
  | _, _ => false
  end.

(** ** Regular expressions of the store ([$regex] with [$options: 'i'])

    The store matches with PCRE.  The fragment modelled here covers the
    patterns [^body$] whose body is a sequence of ordinary characters and
    [.], each optionally followed by [*]; [compile] answers [None] on
    every other pattern, and nothing is stated about those. *)

Module Regex.
Inductive atom : Type :=
| Lit (c : ascii)
| Dot.

Inductive piece : Type :=
| One (a : atom)
| Star (a : atom).

Definition newline : ascii := ascii_of_nat 10.

Definition metachar (c : ascii) : bool :=
  existsb (Ascii.eqb c)
    (list_ascii_of_string ".*+?()[]{}|\^$").

Definition fold_case (c : ascii) : ascii :=
  let n := nat_of_ascii c in
  if (Nat.leb 65 n && Nat.leb n 90)%bool then ascii_of_nat (n + 32) else c.

Definition parse_atom (c : ascii) : option atom :=
  if Ascii.eqb c "." then Some Dot
  else if metachar c then None
  else Some (Lit c).

Fixpoint parse (s : list ascii) : option (list piece) :=
  match s with
  | [] => Some []
  | c :: s' =>
      match parse_atom c with
      | None => None
      | Some a =>
          match s' with
          | q :: s'' =>
              if Ascii.eqb q "*" then option_map (cons (Star a)) (parse s'')
              else option_map (cons (One a)) (parse s')
          | [] => option_map (cons (One a)) (parse s')
          end
      end
  end.

Definition compile (pattern : string) : option (list piece) :=
  match list_ascii_of_string pattern with
  | first :: rest =>
      match rev rest with
      | last :: body =>
          if Ascii.eqb first "^" && Ascii.eqb last "$"
          then parse (rev body)
          else None
      | [] => None
      end
  | [] => None
  end.

Definition atom_matches (a : atom) (c : ascii) : bool :=
  match a with
  | Lit x => Ascii.eqb (fold_case x) (fold_case c)
  | Dot => negb (Ascii.eqb c newline)
  end.

(** [$] without the multiline option: the end of the subject, or just
    before a final newline. *)
Definition at_end (s : list ascii) : bool :=
  match s with
  | [] => true
  | [c] => Ascii.eqb c newline
  | _ => false
  end.

Fixpoint matches (ps : list piece) (s : list ascii) : bool :=
  match ps with
  | [] => at_end s
  | One a :: ps' =>
      match s with
      | c :: s' => atom_matches a c && matches ps' s'
      | [] => false
      end
  | Star a :: ps' =>
      (fix star (s : list ascii) : bool :=
         matches ps' s
         || match s with
            | c :: s' => atom_matches a c && star s'
            | [] => false
            end) s
  end.

Definition search (ps : list piece) (subject : string) : bool :=
  matches ps (list_ascii_of_string subject).

(** The comparison the interface documents for sign-in: equality up to
    the case of ASCII letters. *)
Definition lower (s : string) : string :=
  string_of_list_ascii (map fold_case (list_ascii_of_string s)).

Definition eq_ignoring_case (s t : string) : bool :=
  String.eqb (lower s) (lower t).

(** A string with no character that is special in a pattern. *)
Definition plain (s : string) : bool :=
  forallb (fun c => negb (metachar c)) (list_ascii_of_string s).
End Regex.

(** [d.get(key, default)] on an optional field. *)
Definition get {A} (field : option A) (default : A) : A :=
  match field with Some a => a | None => default end.

(** What a background task writes to standard output. *)
Inductive printed : Type :=
| Nothing
| StatusCheckFailed (error : string)   (* "Status check failed: ..." *)
| Deactivated (n : nat)                (* "Deactivated n expired ads" *)
| AdCheckFailed (error : string).      (* "Error in ad expiration check: ..." *)

(** ** users.py *)

Module Users.
Local Open Scope py_scope.

(** A user document.  The fields every document gets from [create_user]
    are plain; [status] is optional because the handlers read it with a
    default, and the three timestamps are [None] when the key is missing or
    holds null ([last_active] is first written by a heartbeat). *)
Record user : Type := User {
  _id : oid;
  first_name : string;
  last_name : string;
  birthday : string;
  nickname : string;
  department : string;
  level : string;
  whatsapp : string;
  email : string;
  password : string;
  created_at : datetime;
  updated_at : datetime;
  last_login : option datetime;
  status : option string;
  last_active : option datetime;
  last_seen : option datetime
}.

Definition user_eq_dec (u v : user) : {u = v} + {u <> v}.
Proof. repeat decide equality. Defined.

Definition user_eqb (u v : user) : bool :=
  if user_eq_dec u v then true else false.

Definition with_id (i : oid) (u : user) : user :=
  User i (first_name u) (last_name u) (birthday u) (nickname u)
       (department u) (level u) (whatsapp u) (email u) (password u)
       (created_at u) (updated_at u) (last_login u) (status u)
       (last_active u) (last_seen u).

(** [{'$set': {'status': s}}] *)
Definition set_status (s : string) (u : user) : user :=
  User (_id u) (first_name u) (last_name u) (birthday u) (nickname u)
       (department u) (level u) (whatsapp u) (email u) (password u)
       (created_at u) (updated_at u) (last_login u) (Some s)
       (last_active u) (last_seen u).

(** [{'$set': {'last_login': t}}] *)
Definition set_last_login (t : datetime) (u : user) : user :=
  User (_id u) (first_name u) (last_name u) (birthday u) (nickname u)
       (department u) (level u) (whatsapp u) (email u) (password u)
       (created_at u) (updated_at u) (Some t) (status u)
       (last_active u) (last_seen u).

(** [{'$set': {'status': s, 'last_active': a, 'last_seen': b}}] *)
Definition set_presence (s : string) (a b : datetime) (u : user) : user :=
  User (_id u) (first_name u) (last_name u) (birthday u) (nickname u)
       (department u) (level u) (whatsapp u) (email u) (password u)
       (created_at u) (updated_at u) (last_login u) (Some s)
       (Some a) (Some b).

Definition users_collection := collection user.

Definition by_id (i : oid) : user -> bool := has_id _id i.

Record status_config : Type := StatusConfig {
  IDLE_THRESHOLD : Z;       (* minutes *)
  OFFLINE_THRESHOLD : Z     (* minutes *)
}.

(** *** Responses *)

Record sanitized_user : Type := Sanitized {
  s_id : oid;
  s_first_name : string;
  s_last_name : string;
  s_nickname : string;
  s_department : string;
  s_level : string;
  s_email : string;
  s_whatsapp : string;
  s_last_login : option datetime;
  s_status : string;
  s_updated_at : datetime
}.

Record token_payload : Type := TokenPayload {
  tok_user_id : oid;
  tok_nickname : string;
  tok_exp : datetime
}.

(** The JSON bodies; a timestamp stands for its ISO 8601 rendering. *)
Inductive payload : Type :=
| Err (error : string)
| Success
| StatusInfo (status : string) (last_seen : option datetime)
             (first_name department : option string)
| SignedIn (token : token_payload) (user : sanitized_user).

Definition response : Type := payload * Z.

Definition jsonify (p : payload) (code : Z) : response := (p, code).

(** *** requires_auth *)

Inductive bearer : Type :=
| NoToken
| ExpiredToken
| InvalidToken
| ValidToken (user_id : path_id).

Definition requires_auth {S} (tok : bearer) (f : path_id -> M S response)
  : M S response :=
  match tok with
  | NoToken => ret (jsonify (Err "Token missing") 401)
  | ValidToken request_user_id => f request_user_id
  | ExpiredToken => ret (jsonify (Err "Token expired") 401)
  | InvalidToken => ret (jsonify (Err "Invalid token") 401)
  end.

(** *** Helpers *)

Definition sanitize_user_data (u : user) : sanitized_user :=
  Sanitized (_id u) (first_name u) (last_name u) (nickname u)
            (department u) (level u) (email u) (whatsapp u)
            (last_login u) (get (status u) "active") (updated_at u).

(** *** Sign-in *)

Record credentials : Type := Credentials {
  cred_nickname : option string;
  cred_password : option string
}.

Section Signin.
Variable check_password_hash : string -> string -> bool.

(** [{'nickname': {'$regex': pattern, '$options': 'i'}}] *)
Definition find_one_nickname_regex (pattern : string)
  : M users_collection (option user) :=
  match Regex.compile pattern with
  | Some re => find_one (fun u => Regex.search re (nickname u))
  | None => raise RegexOutsideFragment
  end.

Definition signin (data : option credentials) (utcnow now : datetime)
  : M users_collection response :=
  try_except
    (match data with
     | Some (Credentials (Some data_nickname) (Some data_password)) =>
         user <- find_one_nickname_regex ("^" ++ data_nickname ++ "$") ;;
         match user with
         | None => ret (jsonify (Err "Invalid credentials") 401)
         | Some user =>
             if negb (check_password_hash (password user) data_password)
             then ret (jsonify (Err "Invalid credentials") 401)
             else
               let token :=
                 TokenPayload (_id user) (nickname user)
                              (utcnow + timedelta_hours 2) in
               update_one user_eqb (by_id (_id user)) (set_last_login now) ;;;
               ret (jsonify (SignedIn token (sanitize_user_data user)) 200)
         end
     | _ => ret (jsonify (Err "Nickname and password are required") 400)
     end)
    (fun e => ret (jsonify (Err (str e)) 500)).
End Signin.

(** *** Heartbeat; [t_active] and [t_seen] are its two clock readings *)

Definition user_heartbeat (tok : bearer) (t_active t_seen : datetime)
  : M users_collection response :=
  requires_auth tok (fun request_user_id =>
    try_except
      (i <- ObjectId request_user_id ;;
       update_one user_eqb (by_id i) (set_presence "online" t_active t_seen) ;;;
       ret (jsonify Success 200))
      (fun e => ret (jsonify (Err (str e)) 500))).

(** *** Background task *)

Definition status_is (s : string) (u : user) : bool :=
  option_eqb String.eqb (status u) (Some s).

(** [{'last_active': {'$lt': t}}]; a missing or null field never matches. *)
Definition last_active_lt (t : datetime) (u : user) : bool :=
  match last_active u with
  | Some a => a <? t
  | None => false
  end.

(** [{'status': 'online', 'last_active': {'$lt': idle_threshold}}] *)
Definition idle_query (idle_threshold : datetime) (u : user) : bool :=
  status_is "online" u && last_active_lt idle_threshold u.

(** [{'$or': [{'status': 'online'}, {'status': 'idle'}],
     'last_active': {'$lt': offline_threshold}}] *)
Definition offline_query (offline_threshold : datetime) (u : user) : bool :=
  (status_is "online" u || status_is "idle" u)
  && last_active_lt offline_threshold u.

Definition check_user_status (cfg : status_config) (now : datetime)
  : M users_collection printed :=
  try_except
    (let idle_threshold := now - timedelta_minutes (IDLE_THRESHOLD cfg) in
     let offline_threshold := now - timedelta_minutes (OFFLINE_THRESHOLD cfg) in
     update_many user_eqb (idle_query idle_threshold) (set_status "idle") ;;;
     update_many user_eqb (offline_query offline_threshold) (set_status "offline") ;;;
     ret Nothing)
    (fun e => ret (StatusCheckFailed (str e))).

(** What the two bulk updates of one tick, in turn, do to a document. *)
Definition sweep_user (cfg : status_config) (now : datetime) (u : user) : user :=
  set_where (offline_query (now - timedelta_minutes (OFFLINE_THRESHOLD cfg)))
            (set_status "offline")
    (set_where (idle_query (now - timedelta_minutes (IDLE_THRESHOLD cfg)))
               (set_status "idle") u).

(** *** Status read *)

(** The projection [{'status': 1, 'last_active': 1, 'first_name': 1,
    'department': 1}] of a user document. *)
Record status_view : Type := StatusView {
  v_id : oid;
  v_status : option string;
  v_last_active : option datetime;
  v_first_name : option string;
  v_department : option string
}.

Definition project (u : user) : status_view :=
  StatusView (_id u) (status u) (last_active u)
             (Some (first_name u)) (Some (department u)).

Definition find_one_projected (i : oid) : M users_collection (option status_view) :=
  u <- find_one (by_id i) ;; ret (option_map project u).

Definition recompute (cfg : status_config) (now last_active : datetime)
           (status : string) : string :=
  let inactive_for := Qdiv (total_seconds (now - last_active)) (inject_Z 60) in
  if Qltb (inject_Z (OFFLINE_THRESHOLD cfg)) inactive_for then "offline"
  else if Qltb (inject_Z (IDLE_THRESHOLD cfg)) inactive_for then "idle"
  else status.

Definition get_user_status (tok : bearer) (cfg : status_config)
           (now : datetime) (user_id : path_id)
  : M users_collection response :=
  requires_auth tok (fun _ =>
    try_except
      (i <- ObjectId user_id ;;
       user <- find_one_projected i ;;
       match user with
       | None => ret (jsonify (Err "User not found") 404)
       | Some user =>
           let status := get (v_status user) "offline" in
           let last_active := v_last_active user in
           status <-
             match last_active with
             | Some t =>
                 let status := recompute cfg now t status in
                 if negb (option_eqb String.eqb (Some status) (v_status user))
                 then update_one user_eqb (by_id i) (set_status status) ;;;
                      ret status
                 else ret status
             | None => ret status
             end ;;
           ret (jsonify (StatusInfo status last_active
                                    (v_first_name user) (v_department user))
                        200)
       end)
      (fun e => ret (jsonify (Err (str e)) 500))).

(** [{'$set': {'last_seen': t}}], and a store rewritten in its
    [last_seen] fields only. *)
Definition set_last_seen (t : option datetime) (u : user) : user :=
  User (_id u) (first_name u) (last_name u) (birthday u) (nickname u)
       (department u) (level u) (whatsapp u) (email u) (password u)
       (created_at u) (updated_at u) (last_login u) (status u)
       (last_active u) t.

Definition rewrite_last_seen (g : user -> option datetime)
           (c : users_collection) : users_collection :=
  Collection (map (fun u => set_last_seen (g u) u) (docs c)) (db_faults c).

(** A document with its [status] key removed: what is left is what the
    presence engine has no business changing. *)
Definition clear_status (u : user) : user :=
  User (_id u) (first_name u) (last_name u) (birthday u) (nickname u)
       (department u) (level u) (whatsapp u) (email u) (password u)
       (created_at u) (updated_at u) (last_login u) None
       (last_active u) (last_seen u).

(** The status a point query would now find stored for [i]. *)
Definition stored_status (i : oid) (c : users_collection) : option (option string) :=
  option_map status (lookup _id i c).
(** *** Sign-up, bulk creation and deletion of accounts *)

(** The JSON object of a sign-up, its values strings.  A field is [""]
    when its key is missing or holds the empty string:
    [validate_signup_data] reads every key with [data.get], to which the two
    are the same, and [create_user] indexes a key only after validation has
    seen it non-empty. *)
Record signup_data : Type := SignupData {
  data_first_name : string;
  data_last_name : string;
  data_birthday : string;
  data_nickname : string;
  data_department : string;
  data_level : string;
  data_whatsapp : string;
  data_password : string;
  data_email : string
}.

(** The two patterns given to [re.match]: a sequence of [\d] and literal
    characters between [^] and [$].  On the characters of a Rocq string
    [\d] is [0-9]; [$] is the end of the string or just before a final
    newline. *)
Inductive re_item : Type :=
| Digit
| Char (c : ascii).

Definition is_digit (c : ascii) : bool :=
  let n := nat_of_ascii c in Nat.leb 48 n && Nat.leb n 57.

Definition re_item_matches (it : re_item) (c : ascii) : bool :=
  match it with
  | Digit => is_digit c
  | Char x => Ascii.eqb x c
  end.

Fixpoint re_match (pattern : list re_item) (s : list ascii) : bool :=
  match pattern with
  | [] => Regex.at_end s
  | it :: pattern' =>
      match s with
      | c :: s' => re_item_matches it c && re_match pattern' s'
      | [] => false
      end
  end.

(** [^\d{2}-\d{2}$] and [^\d{11}$] *)
Definition birthday_pattern : list re_item :=
  [Digit; Digit; Char "-"; Digit; Digit].

Definition whatsapp_pattern : list re_item := repeat Digit 11.

Definition required (value message : string) : list string :=
  if String.eqb value "" then [message] else [].

Definition validate_signup_data (data : signup_data) : list string :=
  (required (data_first_name data) "First name is required"
   ++ required (data_last_name data) "Last name is required"
   ++ required (data_birthday data) "Birthday is required (MM-DD format)"
   ++ required (data_nickname data) "Nickname is required"
   ++ required (data_department data) "Department is required"
   ++ required (data_level data) "Level is required"
   ++ required (data_whatsapp data) "WhatsApp number is required (11 digits)"
   ++ required (data_password data) "Password is required (min 10 characters)"
   ++ (if negb (String.eqb (data_birthday data) "")
          && negb (re_match birthday_pattern
                            (list_ascii_of_string (data_birthday data)))
       then ["Birthday must be in MM-DD format"] else [])
   ++ (if negb (String.eqb (data_whatsapp data) "")
          && negb (re_match whatsapp_pattern
                            (list_ascii_of_string (data_whatsapp data)))
       then ["WhatsApp number must be 11 digits"] else [])
   ++ (if negb (String.eqb (data_password data) "")
          && Nat.ltb (String.length (data_password data)) 10
       then ["Password must be at least 10 characters"] else []))%list.

(** The JSON bodies of the account routes. *)
Record skipped_entry : Type := Skipped {
  skipped_index : nat;
  skipped_nickname : string;
  skipped_errors : list string
}.

Inductive account_payload : Type :=
| Refused (error : string)
| Invalid (error : string) (details : list string)
| Registered (user : sanitized_user) (message : string)
| BulkCreated (created_count skipped_count : nat)
              (created_user_ids : list oid) (skipped : list skipped_entry)
| Removed (message : string).

Definition account_response : Type := account_payload * Z.

Section Accounts.
(** [str.lower], [str.upper], [str.strip] and werkzeug's
    [generate_password_hash]. *)
Variable str_lower : string -> string.
Variable str_upper : string -> string.
Variable str_strip : string -> string.
Variable generate_password_hash : string -> string.

(** [{'$or': [{'nickname': nickname.lower()}, {'whatsapp': whatsapp}]}] *)
Definition user_exists (nickname whatsapp : string)
  : M users_collection (option user) :=
  find_one (fun u => String.eqb (Users.nickname u) (str_lower nickname)
                     || String.eqb (Users.whatsapp u) whatsapp).

(** The document [create_user] builds; [_id] is assigned by [insert_one].
    The key [last_active] is not set.  The constant
    [last_notification_check], which no handler of this file reads, is left
    out of the record. *)
Definition new_user (data : signup_data) (now : datetime) : user :=
  User 0 (str_strip (data_first_name data))
       (str_strip (data_last_name data))
       (data_birthday data)
       (str_lower (str_strip (data_nickname data)))
       (str_upper (data_department data))
       (str_upper (data_level data))
       (data_whatsapp data)
       (str_lower (str_strip (data_email data)))
       (generate_password_hash (data_password data))
       now now None (Some "active") None None.

Definition create_user (data : signup_data) (now : datetime)
  : M users_collection oid :=
  insert_one _id with_id (new_user data now).

(** [data] is [None] when the request has no JSON body or an empty
    object. *)
Definition signup (data : option signup_data) (now : datetime)
  : M users_collection account_response :=
  try_except
    (match data with
     | None => ret (Refused "No data provided", 400)
     | Some data =>
         let errors := validate_signup_data data in
         if negb (Nat.eqb (List.length errors) 0)
         then ret (Invalid "Validation failed" errors, 400)
         else
           existing <- user_exists (data_nickname data) (data_whatsapp data) ;;
           match existing with
           | Some _ => ret (Refused "User already exists", 400)
           | None =>
               user_id <- create_user data now ;;
               user <- find_one (by_id user_id) ;;
               match user with
               | Some user =>
                   ret (Registered (sanitize_user_data user)
                                   "Registration successful", 201)
               | None =>
                   (* [sanitize_user_data(None)], a TypeError; not reached,
                      the document was just inserted *)
                   raise ValueError
               end
           end
     end)
    (fun e => ret (Refused (str e), 500)).

(** The loop of [bulk_create_users] from the item numbered [index] on;
    [clock index] is the clock reading [create_user] takes for that item. *)
Fixpoint bulk_create_loop (items : list signup_data) (index : nat)
         (clock : nat -> datetime)
         (created : list oid) (skipped : list skipped_entry)
  : M users_collection (list oid * list skipped_entry) :=
  match items with
  | [] => ret (created, skipped)
  | user_data :: rest =>
      let errors := validate_signup_data user_data in
      if negb (Nat.eqb (List.length errors) 0)
      then bulk_create_loop rest (S index) clock created
             (skipped ++ [Skipped index (data_nickname user_data) errors])%list
      else
        existing <- user_exists (data_nickname user_data)
                                (data_whatsapp user_data) ;;
        match existing with
        | Some _ =>
            bulk_create_loop rest (S index) clock created
              (skipped ++ [Skipped index (data_nickname user_data)
                                   ["User already exists"]])%list
        | None =>
            user_id <- create_user user_data (clock index) ;;
            bulk_create_loop rest (S index) clock
              (created ++ [user_id])%list skipped
        end
  end.

(** [data] is [None] when the body is no JSON list. *)
Definition bulk_create_users (data : option (list signup_data))
           (clock : nat -> datetime)
  : M users_collection account_response :=
  try_except
    (match data with
     | None | Some [] =>
         ret (Refused "Invalid data: Expected a list of user objects", 400)
     | Some items =>
         r <- bulk_create_loop items 1 clock [] [] ;;
         ret (BulkCreated (List.length (fst r)) (List.length (snd r))
                          (fst r) (snd r), 201)
     end)
    (fun e => ret (Refused (str e), 500)).
End Accounts.

Definition delete_user (user_id : path_id) : M users_collection account_response :=
  try_except
    (if negb (ObjectId_is_valid user_id)
     then ret (Refused "Invalid user ID", 400)
     else
       i <- ObjectId user_id ;;
       deleted_count <- delete_one (by_id i) ;;
       if Nat.eqb deleted_count 0
       then ret (Refused "User not found", 404)
       else ret (Removed "User deleted successfully", 200))
    (fun e => ret (Refused (str e), 500)).




End Users.

(** ** The asset store (Cloudinary) *)

Record file_storage : Type := FileStorage {
  filename : string;
  content_type : string;
  file_size : Z
}.

Inductive upload_outcome : Type :=
| UploadRaises
| Uploaded (secure_url public_id : string).

Inductive destroy_outcome : Type :=
| DestroyRaises
| DestroyResult (result : string).     (* {'result': 'ok'}, 'not found', ... *)

Record cloudinary : Type := Cloudinary {
  uploader_upload : file_storage -> string -> upload_outcome;
  uploader_destroy : string -> destroy_outcome
}.

Definition upload {S} (cloud : cloudinary) (file : file_storage) (folder : string)
  : M S (string * string) :=
  match uploader_upload cloud file folder with
  | UploadRaises => raise CloudinaryError
  | Uploaded secure_url public_id => ret (secure_url, public_id)
  end.

Definition destroy {S} (cloud : cloudinary) (public_id : string) : M S string :=
  match uploader_destroy cloud public_id with
  | DestroyRaises => raise CloudinaryError
  | DestroyResult result => ret result
  end.

(** Truth value of an optional string: [None] and [''] are falsy. *)
Definition truthy (s : option string) : bool :=
  match s with
  | Some s => negb (String.eqb s "")
  | None => false
  end.

(** ** sponsored_ads.py *)

Module SponsoredAds.
Local Open Scope py_scope.

Record ad : Type := Ad {
  _id : oid;
  title : string;
  description : string;
  sponsor_name : string;
  whatsapp_number : string;
  created_at : datetime;
  expires_at : datetime;
  is_active : bool;
  sponsor_logo_url : option string;
  sponsor_logo_public_id : option string;
  ad_image_url : option string;
  ad_image_public_id : option string
}.

Definition ad_eq_dec (a b : ad) : {a = b} + {a <> b}.
Proof. repeat decide equality. Defined.

Definition ad_eqb (a b : ad) : bool := if ad_eq_dec a b then true else false.

Definition with_id (i : oid) (a : ad) : ad :=
  Ad i (title a) (description a) (sponsor_name a) (whatsapp_number a)
     (created_at a) (expires_at a) (is_active a)
     (sponsor_logo_url a) (sponsor_logo_public_id a)
     (ad_image_url a) (ad_image_public_id a).

(** [{'$set': {'is_active': b}}] *)
Definition set_is_active (b : bool) (a : ad) : ad :=
  Ad (_id a) (title a) (description a) (sponsor_name a) (whatsapp_number a)
     (created_at a) (expires_at a) b
     (sponsor_logo_url a) (sponsor_logo_public_id a)
     (ad_image_url a) (ad_image_public_id a).

(** [{'$set': {'expires_at': t, 'is_active': b}}] *)
Definition set_expiry (t : datetime) (b : bool) (a : ad) : ad :=
  Ad (_id a) (title a) (description a) (sponsor_name a) (whatsapp_number a)
     (created_at a) t b
     (sponsor_logo_url a) (sponsor_logo_public_id a)
     (ad_image_url a) (ad_image_public_id a).

Definition ads_collection := collection ad.

Definition by_id (i : oid) : ad -> bool := has_id _id i.

Inductive payload : Type :=
| Err (error : string)
| Created (message : string) (ad_id : oid)
| Ads (ads : list ad)
| Message (message : string).

Definition response : Type := payload * Z.

Definition jsonify (p : payload) (code : Z) : response := (p, code).

(** [.sort('created_at', -1)] *)
Fixpoint insert_desc (a : ad) (l : list ad) : list ad :=
  match l with
  | [] => [a]
  | b :: l' =>
      if created_at b <=? created_at a then a :: l
      else b :: insert_desc a l'
  end.

Definition sort_created_desc (l : list ad) : list ad :=
  fold_right insert_desc [] l.

(** *** Create *)

(** The form field [duration_days] as [int(...)] sees it. *)
Inductive int_field : Type :=
| Absent
| Literal (n : Z)
| NotAnInteger.

Record ad_form : Type := AdForm {
  form_title : option string;
  form_description : option string;
  form_sponsor_name : option string;
  form_whatsapp_number : option string;
  form_duration_days : int_field;
  files_sponsor_logo : option file_storage;
  files_ad_image : option file_storage
}.

Definition int_with_default {S} (f : int_field) (default : Z) : M S Z :=
  match f with
  | Absent => ret default
  | Literal n => ret n
  | NotAnInteger => raise ValueError
  end.

(** Truth value of an uploaded file: it has a file name. *)
Definition file_given (f : option file_storage) : option file_storage :=
  match f with
  | Some file => if String.eqb (filename file) "" then None else Some file
  | None => None
  end.

Definition upload_optional {S} (cloud : cloudinary) (f : option file_storage)
           (folder : string) : M S (option string * option string) :=
  match file_given f with
  | Some file =>
      r <- upload cloud file folder ;;
      ret (Some (fst r), Some (snd r))
  | None => ret (None, None)
  end.

Definition create_sponsored_ad (cloud : cloudinary) (form : ad_form)
           (now : datetime) : M ads_collection response :=
  try_except
    (duration_days <- int_with_default (form_duration_days form) 7 ;;
     if negb (truthy (form_title form) && truthy (form_description form)
              && truthy (form_sponsor_name form)
              && truthy (form_whatsapp_number form))
     then ret (jsonify (Err "Missing required fields") 400)
     else
       logo <- upload_optional cloud (files_sponsor_logo form) "sponsored_ads/logos" ;;
       image <- upload_optional cloud (files_ad_image form) "sponsored_ads/images" ;;
       let created_at := now in
       let expires_at := created_at + timedelta_days duration_days in
       let ad_data :=      (* [_id] is assigned by [insert_one] *)
         Ad 0 (get (form_title form) "")
            (get (form_description form) "")
            (get (form_sponsor_name form) "")
            (get (form_whatsapp_number form) "")
            created_at expires_at true
            (fst logo) (snd logo) (fst image) (snd image) in
       ad_id <- insert_one _id with_id ad_data ;;
       ret (jsonify (Created "Sponsored ad created successfully" ad_id) 201))
    (fun e => ret (jsonify (Err (str e)) 500)).

(** *** Queries *)

Definition active_query (current_time : datetime) (a : ad) : bool :=
  Bool.eqb (is_active a) true && (current_time <? expires_at a).

Definition expired_query (current_time : datetime) (a : ad) : bool :=
  expires_at a <=? current_time.

Definition get_active_ads (now : datetime) : M ads_collection response :=
  try_except
    (let current_time := now in
     active_ads <- find_all (active_query current_time) ;;
     ret (jsonify (Ads (sort_created_desc active_ads)) 200))
    (fun e => ret (jsonify (Err (str e)) 500)).

Definition get_expired_ads (now : datetime) : M ads_collection response :=
  try_except
    (let current_time := now in
     expired_ads <- find_all (expired_query current_time) ;;
     ret (jsonify (Ads (sort_created_desc expired_ads)) 200))
    (fun e => ret (jsonify (Err (str e)) 500)).

(** *** Delete *)

Definition destroy_if_present {S} (cloud : cloudinary) (public_id : option string)
  : M S unit :=
  match public_id with
  | Some p => destroy cloud p ;;; ret tt
  | None => ret tt
  end.

Definition delete_ad (cloud : cloudinary) (ad_id : path_id)
  : M ads_collection response :=
  try_except
    (i <- ObjectId ad_id ;;
     ad <- find_one (by_id i) ;;
     match ad with
     | None => ret (jsonify (Err "Ad not found") 404)
     | Some ad =>
         destroy_if_present cloud (sponsor_logo_public_id ad) ;;;
         destroy_if_present cloud (ad_image_public_id ad) ;;;
         delete_one (by_id i) ;;;
         ret (jsonify (Message "Ad deleted successfully") 200)
     end)
    (fun e => ret (jsonify (Err (str e)) 500)).

(** *** Background task *)

(** [{'expires_at': {'$lte': current_time}, 'is_active': True}] *)
Definition sweep_query (current_time : datetime) (a : ad) : bool :=
  (expires_at a <=? current_time) && Bool.eqb (is_active a) true.

Definition check_expired_ads (now : datetime) : M ads_collection printed :=
  try_except
    (let current_time := now in
     result <- update_many ad_eqb (sweep_query current_time)
                           (set_is_active false) ;;
     if Nat.ltb 0 (modified_count result)
     then ret (Deactivated (modified_count result))
     else ret Nothing)
    (fun e => ret (AdCheckFailed (str e))).

(** *** Extend *)

Definition extend_ad (ad_id : path_id) : M ads_collection response :=
  try_except
    (i <- ObjectId ad_id ;;
     ad <- find_one (by_id i) ;;
     match ad with
     | None => ret (jsonify (Err "Ad not found") 404)
     | Some ad =>
         let new_expires_at := expires_at ad + timedelta_days 7 in
         update_one ad_eqb (by_id i) (set_expiry new_expires_at true) ;;;
         ret (jsonify (Message "Ad extended successfully") 200)
     end)
    (fun e => ret (jsonify (Err (str e)) 500)).

(** What one sweep tick does to a document. *)
Definition sweep_ad (now : datetime) (a : ad) : ad :=
  set_where (sweep_query now) (set_is_active false) a.


(** The order of a listing: [a] is listed before [b]. *)
Definition newer_first (a b : ad) : Prop := created_at b <= created_at a.
End SponsoredAds.

(** ** faculty_wear.py *)

Module FacultyWear.
Local Open Scope py_scope.

Record wear : Type := Wear {
  _id : oid;
  title : string;
  description : string;
  image_url : option string;
  badge_text : string;
  standard_price : Q;
  custom_price : Q;
  add_to_cart_text : string;
  add_to_cart_link : string;
  buy_now_text : string;
  buy_now_link : string;
  created_at : datetime;
  updated_at : datetime
}.

Definition by_id (i : oid) : wear -> bool := has_id _id i.

Inductive payload : Type :=
| StatusError (message : string)
| StatusSuccess (message : string).

Definition response : Type := payload * Z.

Definition jsonify (p : payload) (code : Z) : response := (p, code).

(** [needle in hay] *)
Fixpoint contains (needle hay : string) : bool :=
  String.prefix needle hay
  || match hay with
     | String _ hay' => contains needle hay'
     | EmptyString => false
     end.

(** [s.split(sep)] for a one-character separator. *)
Fixpoint split (sep : ascii) (s : string) : list string :=
  match s with
  | EmptyString => [""]
  | String c s' =>
      if Ascii.eqb c sep then "" :: split sep s'
      else match split sep s' with
           | x :: r => String c x :: r
           | [] => [String c ""]
           end
  end.

(** [parts[-k]] for [k >= 1]. *)
Definition from_end {S} (parts : list string) (k : nat) : M S string :=
  match nth_error (rev parts) (k - 1) with
  | Some p => ret p
  | None => raise IndexError
  end.

Definition delete_from_cloudinary {S} (cloud : cloudinary)
           (image_url : option string) : M S bool :=
  try_except
    (match image_url with
     | None => ret false
     | Some url =>
         if negb (truthy (Some url)) || negb (contains "cloudinary.com" url)
         then ret false
         else
           let parts := split "/" url in
           before_last <- from_end parts 2 ;;
           let folder :=
             if String.eqb before_last "upload" then None else Some before_last in
           last <- from_end parts 1 ;;
           let stem := hd "" (split "." last) in
           let public_id :=
             if truthy folder then get folder "" ++ "/" ++ stem else stem in
           result <- destroy cloud public_id ;;
           ret (String.eqb result "ok")
     end)
    (fun _ => ret false).

Definition delete_wear (cloud : cloudinary) (item_id : path_id)
  : M (collection wear) response :=
  try_except
    (if negb (ObjectId_is_valid item_id)
     then raise (BadRequest "Invalid product ID format")
     else
       i <- ObjectId item_id ;;
       item <- find_one (by_id i) ;;
       match item with
       | None => raise (NotFound "Product not found")
       | Some item =>
           (if truthy (image_url item)
               && contains "cloudinary.com" (get (image_url item) "")
            then delete_from_cloudinary cloud (image_url item) ;;; ret tt
            else ret tt) ;;;
           deleted_count <- delete_one (by_id i) ;;
           if Nat.eqb deleted_count 0
           then raise (NotFound "Product not found")
           else ret (jsonify (StatusSuccess "Product deleted successfully") 200)
       end)
    (fun e =>
       match e with
       | NotFound msg => ret (jsonify (StatusError msg) 404)
       | BadRequest msg => ret (jsonify (StatusError msg) 400)
       | _ => ret (jsonify (StatusError "Failed to delete product") 500)
       end).
(** [upload_to_cloudinary]: the type and size checks, the upload, and the
    two [except] clauses, the first re-raising a [BadRequest], the second
    turning anything else into one. *)
Definition upload_to_cloudinary {S} (cloud : cloudinary) (file : file_storage)
  : M S string :=
  try_except
    (if negb (String.prefix "image/" (content_type file))
     then raise (BadRequest "Only image files are allowed")
     else if 10 * 1024 * 1024 <? file_size file
     then raise (BadRequest "Image size must be less than 10MB")
     else
       upload_result <- upload cloud file "faculty_wear" ;;
       ret (fst upload_result))
    (fun e =>
       match e with
       | BadRequest msg => raise (BadRequest msg)
       | _ => raise (BadRequest "Failed to upload image to Cloudinary")
       end).

(** [c not in s] *)
Definition has_no (c : ascii) (s : string) : bool :=
  forallb (fun x => negb (Ascii.eqb x c)) (list_ascii_of_string s).
End FacultyWear.

(** ** Sample data *)

Module Samples.
Import Users.

Definition cfg : status_config := StatusConfig 5 30.

(** A user last active at time 0, with a given stored status. *)
Definition member (i : oid) (nick : string) (st : option string)
           (active seen : option datetime) : user :=
  User i "Ada" "Obi" "01-31" nick "CSC" "300" "07012345678" ""
       "hash:correct horse" 0 0 None st active seen.

Definition ada (st : string) : user :=
  member 1 "ada" (Some st) (Some 0) (Some 0).

Definition john : user := member 2 "john" (Some "active") None None.

(** Two members whose nicknames differ in one character, the second
    with a password of its own. *)
Definition jxdoe : user := member 3 "jxdoe" (Some "active") None None.

Definition j_doe : user :=
  User 4 "Jo" "Doe" "02-28" "j.doe" "CSC" "300" "07087654321" ""
       "hash:battery staple" 0 0 None (Some "active") None None.

Definition sign_in_as (nick pass : string) : option credentials :=
  Some (Credentials (Some nick) (Some pass)).

Definition only (u : user) : users_collection := Collection [u] [].

(** A stand-in for the password hash collaborator. *)
Definition check_password_hash (hash password : string) : bool :=
  String.eqb hash ("hash:" ++ password).

Definition day : timedelta := timedelta_days 1.

Definition promo (i : oid) (created expires : datetime) (active : bool)
           (logo_public_id : option string) : SponsoredAds.ad :=
  SponsoredAds.Ad i "Sale" "Half price" "Acme" "08012345678"
                  created expires active
                  (option_map (fun _ => "https://res.cloudinary.com/demo/logo.png")
                              logo_public_id)
                  logo_public_id None None.

Definition blank_form (duration : SponsoredAds.int_field) : SponsoredAds.ad_form :=
  SponsoredAds.AdForm (Some "Sale") (Some "Half price") (Some "Acme")
                      (Some "08012345678") duration None None.

Definition shirt (i : oid) (url : option string) : FacultyWear.wear :=
  FacultyWear.Wear i "Shirt" "Cotton" url "" (inject_Z 20) (inject_Z 30)
                   "Add" "#" "Buy" "#" 0 0.

(** An asset store that is reachable, and one whose every call raises. *)
Definition cloud_up : cloudinary :=
  Cloudinary (fun _ _ => Uploaded "https://res.cloudinary.com/demo/up.png" "up")
             (fun _ => DestroyResult "ok").

Definition cloud_down : cloudinary :=
  Cloudinary (fun _ _ => UploadRaises) (fun _ => DestroyRaises).

(** Stand-ins for [str.lower], [str.upper], [str.strip] and
    [generate_password_hash], right on ASCII letters and on spaces. *)
Definition lower : string -> string := Regex.lower.

Definition upper_char (c : ascii) : ascii :=
  let n := nat_of_ascii c in
  if (Nat.leb 97 n && Nat.leb n 122)%bool then ascii_of_nat (n - 32) else c.

Definition upper (s : string) : string :=
  string_of_list_ascii (map upper_char (list_ascii_of_string s)).

Fixpoint drop_spaces (l : list ascii) : list ascii :=
  match l with
  | c :: l' => if Ascii.eqb c " " then drop_spaces l' else l
  | [] => []
  end.

Definition strip (s : string) : string :=
  string_of_list_ascii
    (rev (drop_spaces (rev (drop_spaces (list_ascii_of_string s))))).

Definition generate_password_hash (password : string) : string :=
  "hash:" ++ password.

Definition signup := Users.signup lower upper strip generate_password_hash.

Definition bulk_create_users :=
  Users.bulk_create_users lower upper strip generate_password_hash.

Definition newcomer (nick whatsapp : string) : signup_data :=
  SignupData "Bola " "Ade" "03-15" nick "csc" "200" whatsapp
             "correct horse" "Bola@Example.com".
End Samples.

(** * Properties *)

(** ** The handler monad and the store *)

Section CollectionFacts.
Context {D : Type} (D_id : D -> oid).

Lemma db_call_healthy {A} (op : list D -> A * list D) (ds : list D) :
  db_call op (Collection ds []) = (inr (fst (op ds)), Collection (snd (op ds)) []).
Proof. unfold db_call; simpl. destruct (op ds); reflexivity. Qed.

Lemma db_call_answers {A} (op : list D -> A * list D) ds fs :
  db_call op (Collection ds (false :: fs))
  = (inr (fst (op ds)), Collection (snd (op ds)) fs).
Proof. unfold db_call; simpl. destruct (op ds); reflexivity. Qed.

Lemma db_call_raises {A} (op : list D -> A * list D) ds fs :
  db_call op (Collection ds (true :: fs)) = (inl PyMongoError, Collection ds fs).
Proof. reflexivity. Qed.

Lemma find_update_first (i : oid) (f : D -> D) (ds : list D) (u : D) :
  (forall d, D_id (f d) = D_id d) ->
  find (has_id D_id i) ds = Some u ->
  find (has_id D_id i) (update_first (has_id D_id i) f ds) = Some (f u).
Proof.
  intros Hid. induction ds as [|d ds IH]; simpl; [discriminate|].
  destruct (has_id D_id i d) eqn:E.
  - intros [= <-]. simpl. unfold has_id in *. rewrite Hid, E. reflexivity.
  - intros H. simpl. rewrite E. auto.
Qed.

Lemma find_map_same_id (i : oid) (g : D -> D) (ds : list D) :
  (forall d, D_id (g d) = D_id d) ->
  find (has_id D_id i) (map g ds) = option_map g (find (has_id D_id i) ds).
Proof.
  intros Hid. induction ds as [|d ds IH]; simpl; [reflexivity|].
  unfold has_id at 1. rewrite Hid. fold (has_id D_id i d).
  destruct (has_id D_id i d); auto.
Qed.

Lemma find_split (p : D -> bool) (ds : list D) (u : D) :
  find p ds = Some u ->
  exists l1 l2, ds = (l1 ++ u :: l2)%list /\ p u = true
                /\ forall x, In x l1 -> p x = false.
Proof.
  clear D_id. induction ds as [|d ds IH]; simpl; [discriminate|].
  destruct (p d) eqn:E.
  - intros [= <-]. exists [], ds. simpl. repeat split; tauto.
  - intros H. destruct (IH H) as (l1 & l2 & -> & Hu & Hl).
    exists (d :: l1), l2. repeat split; auto.
    intros x [<-|Hx]; auto.
Qed.


Lemma fresh_id_above (ds : list D) (d : D) :
  In d ds -> (D_id d < fresh_id D_id ds)%nat.
Proof.
  unfold fresh_id. induction ds as [|x ds IH]; simpl; [tauto|].
  intros [<-|H]; [|specialize (IH H)]; lia.
Qed.
End CollectionFacts.

(** A handler whose [except] clause answers never lets an exception out. *)
Lemma try_except_answers {S A} (body : M S A) (h : exn -> A) (s : S) :
  exists a s', try_except body (fun e => ret (h e)) s = (inr a, s').
Proof.
  unfold try_except. destruct (body s) as [[e|a] s']; unfold ret; eauto.
Qed.

(** ** Presence engine *)

Section PresenceFacts.
Import Users.
Local Arguments option_eqb : simpl never.





Lemma set_status_id s u : _id (set_status s u) = _id u.
Proof. reflexivity. Qed.

Lemma option_string_eqb_eq (x y : option string) :
  option_eqb String.eqb x y = true <-> x = y.
Proof.
  destruct x as [a|], y as [b|]; unfold option_eqb; try (split; congruence).
  rewrite String.eqb_eq. split; congruence.
Qed.

(** The status read on a store that answers: the response carries the
    recomputed status, and that status is the one stored afterwards. *)
Lemma read_recomputes tok_user cfg now i c u t :
  db_faults c = [] ->
  lookup _id i c = Some u ->
  last_active u = Some t ->
  let s := recompute cfg now t (get (status u) "offline") in
  exists c',
    get_user_status (ValidToken tok_user) cfg now (WellFormed i) c
    = (inr (StatusInfo s (Some t) (Some (first_name u)) (Some (department u)),
            200), c')
    /\ stored_status i c' = Some (Some s)
    /\ db_faults c' = [].
Proof.
  intros Hf Hu Ht s. destruct c as [ds fs]; unfold lookup in Hu; simpl in *; subst fs.
  unfold get_user_status, requires_auth, try_except, bind, ObjectId,
    find_one_projected, find_one, ret, bind.
  rewrite db_call_healthy; simpl. fold (by_id i). unfold by_id. rewrite Hu; simpl.
  rewrite Ht. fold s.
  destruct (option_eqb String.eqb (Some s) (status u)) eqn:E; simpl.
  - eexists; split; [reflexivity|]. split; [|reflexivity].
    unfold stored_status, lookup; simpl. rewrite Hu; simpl.
    apply option_string_eqb_eq in E. congruence.
  - eexists; split; [reflexivity|]. split; [|reflexivity].
    unfold stored_status, lookup; simpl.
    rewrite (find_update_first _id i (set_status s) ds u (set_status_id s) Hu).
    reflexivity.
Qed.

(** One sweep tick on a store that answers rewrites every document by
    the two bulk updates in turn. *)
Lemma sweep_healthy cfg now ds :
  check_user_status cfg now (Collection ds [])
  = (inr Nothing, Collection (map (sweep_user cfg now) ds) []).
Proof.
  unfold check_user_status, try_except, bind, update_many, ret, db_call; simpl.
  rewrite map_map. reflexivity.
Qed.

Lemma sweep_user_id cfg now u : _id (sweep_user cfg now u) = _id u.
Proof.
  unfold sweep_user, set_where.
  repeat match goal with |- context [if ?b then _ else _] => destruct b end;
    reflexivity.
Qed.

Lemma stored_status_sweep cfg now i c u :
  db_faults c = [] ->
  lookup _id i c = Some u ->
  stored_status i (snd (check_user_status cfg now c))
  = Some (status (sweep_user cfg now u)).
Proof.
  destruct c as [ds fs]; unfold lookup; simpl. intros -> Hu.
  rewrite sweep_healthy. unfold stored_status, lookup; simpl.
  rewrite (find_map_same_id _id i _ ds (sweep_user_id cfg now)), Hu.
  reflexivity.
Qed.
End PresenceFacts.

Section PresenceClaims.
Import Users.
Local Arguments option_eqb : simpl never.














Lemma find_rewritten_last_seen g i ds :
  option_map project (find (by_id i) (map (fun u => set_last_seen (g u) u) ds))
  = option_map project (find (by_id i) ds).
Proof.
  unfold by_id.
  rewrite (find_map_same_id _id i (fun u => set_last_seen (g u) u) ds)
    by reflexivity.
  destruct (find (has_id _id i) ds); reflexivity.
Qed.

(** C10. The [last_seen] of the status response is the stored
    [last_active] of the user (null when there is none), and the response
    is the same on every store that differs in [last_seen] fields only. *)
Theorem status_read_reports_last_active tok_user cfg now i c u :
  db_faults c = [] ->
  lookup _id i c = Some u ->
  (exists s c',
      get_user_status (ValidToken tok_user) cfg now (WellFormed i) c
      = (inr (StatusInfo s (last_active u)
                         (Some (first_name u)) (Some (department u)), 200), c'))
  /\ (forall g tok id c0,
        fst (get_user_status tok cfg now id (rewrite_last_seen g c0))
        = fst (get_user_status tok cfg now id c0)).
Proof.
  intros Hf Hu. split.
  - destruct (last_active u) as [t|] eqn:Ht.
    + destruct (read_recomputes tok_user cfg now i c u t Hf Hu Ht)
        as (c' & Hrun & _). eauto.
    + destruct c as [ds fs]; unfold lookup in Hu; simpl in *; subst fs.
      unfold get_user_status, requires_auth, try_except, bind, ObjectId,
        find_one_projected, find_one, ret, bind.
      rewrite db_call_healthy; simpl. fold (by_id i). unfold by_id.
      rewrite Hu; simpl. rewrite Ht. eauto.
  - intros g tok id [ds fs]. unfold rewrite_last_seen; simpl.
    destruct tok; try reflexivity. destruct id as [j|]; [|reflexivity].
    unfold get_user_status, requires_auth, try_except, bind, ObjectId,
      find_one_projected, find_one, update_one, ret, bind, db_call; simpl.
    pose proof (find_rewritten_last_seen g j ds) as Hv.
    destruct fs as [|[|] fs]; simpl; try reflexivity; rewrite Hv;
      (destruct (option_map project (find (by_id j) ds)) as [v|];
       [|reflexivity]);
      (destruct (v_last_active v); [|reflexivity]);
      (destruct (negb _); [|reflexivity]);
      try reflexivity; destruct fs as [|[|] fs]; reflexivity.
Qed.

Lemma status_read_reports_last_active_witness :
  (exists s c',
      get_user_status (ValidToken (WellFormed 1)) Samples.cfg 7 (WellFormed 1)
                      (Samples.only (Samples.member 1 "ada" (Some "online")
                                                    (Some 3) (Some 5)))
      = (inr (StatusInfo s (Some 3) (Some "Ada") (Some "CSC"), 200), c'))
  /\ (forall g tok id c0,
        fst (get_user_status tok Samples.cfg 7 id (rewrite_last_seen g c0))
        = fst (get_user_status tok Samples.cfg 7 id c0)).
Proof.
  apply (status_read_reports_last_active (WellFormed 1) Samples.cfg 7 1%nat
           (Samples.only (Samples.member 1 "ada" (Some "online") (Some 3) (Some 5)))
           (Samples.member 1 "ada" (Some "online") (Some 3) (Some 5)));
    reflexivity.
Defined.

(** A heartbeat reads the clock twice, so the two fields can differ; the
    status read then reports the first reading under [last_seen]. *)
Example heartbeat_then_status_read :
  let c := snd (user_heartbeat (ValidToken (WellFormed 2)) 10 11
                               (Samples.only Samples.john)) in
  option_map last_seen (lookup _id 2 c) = Some (Some 11)
  /\ fst (get_user_status (ValidToken (WellFormed 2)) Samples.cfg 12 (WellFormed 2) c)
     = inr (StatusInfo "online" (Some 10) (Some "Ada") (Some "CSC"), 200).
Proof. vm_compute. split; reflexivity. Qed.

Lemma sweep_user_idempotent cfg now u :
  sweep_user cfg now (sweep_user cfg now u) = sweep_user cfg now u.
Proof.
  destruct u as [? ? ? ? ? ? ? ? ? ? ? ? ? [s|] [t|] ?];
    unfold sweep_user, set_where, idle_query, offline_query, status_is,
      last_active_lt, option_eqb, set_status; simpl;
    repeat match goal with
           | |- context [String.eqb ?a ?b] =>
               destruct (String.eqb_spec a b); subst; simpl;
               try discriminate; try congruence
           | |- context [Z.ltb ?a ?b] =>
               destruct (Z.ltb_spec a b); try lia; simpl
           end;
    reflexivity.
Qed.

Lemma presence_sweep_idempotent cfg now (c : users_collection) :
  db_faults c = [] ->
  check_user_status cfg now (snd (check_user_status cfg now c))
  = check_user_status cfg now c.
Proof.
  destruct c as [ds fs]; simpl; intros ->.
  rewrite sweep_healthy; simpl. rewrite sweep_healthy.
  rewrite map_map. do 2 f_equal. apply map_ext. intros u.
  apply sweep_user_idempotent.
Qed.
End PresenceClaims.

(** ** Ad lifecycle *)

Section AdFacts.
Import SponsoredAds.

Lemma insert_desc_perm a l : Permutation (insert_desc a l) (a :: l).
Proof.
  induction l as [|b l IH]; simpl; [reflexivity|].
  destruct (created_at b <=? created_at a); [reflexivity|].
  rewrite IH. apply perm_swap.
Qed.

Lemma sort_created_desc_perm l : Permutation (sort_created_desc l) l.
Proof.
  induction l as [|a l IH]; simpl; [constructor|].
  rewrite insert_desc_perm. constructor. exact IH.
Qed.

Lemma in_sort_created_desc a l : In a (sort_created_desc l) <-> In a l.
Proof.
  split; apply Permutation_in;
    [|symmetry]; apply sort_created_desc_perm.
Qed.

Lemma active_query_spec now a :
  active_query now a = true <-> is_active a = true /\ now < expires_at a.
Proof.
  unfold active_query. rewrite Bool.andb_true_iff, Z.ltb_lt.
  destruct (is_active a); simpl; intuition congruence.
Qed.

Lemma expired_query_spec now a :
  expired_query now a = true <-> expires_at a <= now.
Proof. unfold expired_query. apply Z.leb_le. Qed.

Lemma get_active_ads_healthy now ds :
  get_active_ads now (Collection ds [])
  = (inr (Ads (sort_created_desc (filter (active_query now) ds)), 200),
     Collection ds []).
Proof. reflexivity. Qed.

Lemma get_expired_ads_healthy now ds :
  get_expired_ads now (Collection ds [])
  = (inr (Ads (sort_created_desc (filter (expired_query now) ds)), 200),
     Collection ds []).
Proof. reflexivity. Qed.

(** C3. On a store that answers, the active listing is a rearrangement
    of the stored ads with [is_active] true and [expires_at] after the
    current time, and no ad with [expires_at <= now] is in it, whatever
    its flag. *)
Theorem active_listing_is_exact now c :
  db_faults c = [] ->
  exists ads,
    get_active_ads now c = (inr (Ads ads, 200), c)
    /\ Permutation ads (filter (active_query now) (docs c))
    /\ (forall a, In a ads <->
                  In a (docs c) /\ is_active a = true /\ now < expires_at a)
    /\ (forall a, expires_at a <= now -> ~ In a ads).
Proof.
  destruct c as [ds fs]; simpl; intros ->.
  exists (sort_created_desc (filter (active_query now) ds)).
  split; [apply get_active_ads_healthy|].
  split; [apply sort_created_desc_perm|].
  assert (H : forall a, In a (sort_created_desc (filter (active_query now) ds))
                        <-> In a ds /\ is_active a = true /\ now < expires_at a).
  { intros a. rewrite in_sort_created_desc, filter_In, active_query_spec. tauto. }
  split; [exact H|].
  intros a Hexp Hin. apply H in Hin. lia.
Qed.

Lemma active_listing_is_exact_witness :
  exists ads,
    get_active_ads (3 * Samples.day)
      (Collection [Samples.promo 1 0 (2 * Samples.day) true None;
                   Samples.promo 2 0 (9 * Samples.day) true None] [])
    = (inr (Ads ads, 200),
       Collection [Samples.promo 1 0 (2 * Samples.day) true None;
                   Samples.promo 2 0 (9 * Samples.day) true None] [])
    /\ Permutation ads
         (filter (active_query (3 * Samples.day))
                 [Samples.promo 1 0 (2 * Samples.day) true None;
                  Samples.promo 2 0 (9 * Samples.day) true None])
    /\ (forall a, In a ads <->
                  In a [Samples.promo 1 0 (2 * Samples.day) true None;
                        Samples.promo 2 0 (9 * Samples.day) true None]
                  /\ is_active a = true /\ 3 * Samples.day < expires_at a)
    /\ (forall a, expires_at a <= 3 * Samples.day -> ~ In a ads).
Proof.
  apply (active_listing_is_exact (3 * Samples.day)
           (Collection [Samples.promo 1 0 (2 * Samples.day) true None;
                        Samples.promo 2 0 (9 * Samples.day) true None] [])).
  reflexivity.
Defined.

(** The listing of the sample store at day 3: the ad that ran out on day 2
    is left out although its flag is still set. *)
Example active_listing_at_day_3 :
  fst (get_active_ads (3 * Samples.day)
         (Collection [Samples.promo 1 0 (2 * Samples.day) true None;
                      Samples.promo 2 0 (9 * Samples.day) true None] []))
  = inr (Ads [Samples.promo 2 0 (9 * Samples.day) true None], 200).
Proof. vm_compute. reflexivity. Qed.




(** An ad that ran out on day 1, extended on day 30: it runs out again on
    day 8, and is flagged active all the same. *)
Example extend_an_ad_long_expired :
  let c := Collection [Samples.promo 1 0 Samples.day false None] [] in
  option_map (fun a => (expires_at a, is_active a))
             (lookup _id 1 (snd (extend_ad (WellFormed 1) c)))
  = Some (8 * Samples.day, true).
Proof. vm_compute. reflexivity. Qed.

Lemma sweep_query_after_sweep now a : sweep_query now (sweep_ad now a) = false.
Proof.
  unfold sweep_ad, set_where. destruct (sweep_query now a) eqn:E; [|exact E].
  unfold sweep_query, set_is_active; simpl. apply Bool.andb_false_r.
Qed.

Lemma sweep_ad_idempotent now a : sweep_ad now (sweep_ad now a) = sweep_ad now a.
Proof.
  unfold sweep_ad at 1. unfold set_where. rewrite sweep_query_after_sweep.
  reflexivity.
Qed.

Lemma check_expired_ads_healthy now ds :
  snd (check_expired_ads now (Collection ds []))
  = Collection (map (sweep_ad now) ds) [].
Proof.
  unfold check_expired_ads, try_except, bind, update_many, ret, db_call; simpl.
  destruct (Nat.ltb 0 _); reflexivity.
Qed.

Lemma filter_none {A} (p : A -> bool) (l : list A) :
  (forall x, In x l -> p x = false) -> filter p l = [].
Proof.
  induction l as [|x l IH]; simpl; intros H; [reflexivity|].
  rewrite (H x (or_introl eq_refl)). apply IH. auto.
Qed.

Lemma check_expired_ads_settled now ds :
  (forall a, In a ds -> sweep_query now a = false) ->
  check_expired_ads now (Collection ds []) = (inr Nothing, Collection ds []).
Proof.
  intros H.
  unfold check_expired_ads, try_except, bind, update_many, ret, db_call; simpl.
  rewrite (filter_none (fun d => (sweep_query now d && _)%bool)).
  - simpl. do 2 f_equal. rewrite <- (map_id ds) at 2. apply map_ext_in.
    intros a Ha. unfold set_where. rewrite (H a Ha). reflexivity.
  - intros a Ha. rewrite (H a Ha). reflexivity.
Qed.

Lemma ad_sweep_idempotent now (c : ads_collection) :
  db_faults c = [] ->
  check_expired_ads now (snd (check_expired_ads now c))
  = (inr Nothing, snd (check_expired_ads now c)).
Proof.
  destruct c as [ds fs]; simpl; intros ->.
  rewrite check_expired_ads_healthy. apply check_expired_ads_settled.
  intros a Ha. apply in_map_iff in Ha. destruct Ha as (b & <- & _).
  apply sweep_query_after_sweep.
Qed.




(** The two listings one second after a zero-day ad is created. *)
Example zero_duration_ad_listings :
  let c := snd (create_sponsored_ad Samples.cloud_up
                  (Samples.blank_form (Literal 0)) Samples.day
                  (Collection [Samples.promo 1 0 (9 * Samples.day) true None] [])) in
  let ids r := match r with
               | inr (Ads l, _) => map _id l
               | _ => []
               end in
  ids (fst (get_expired_ads (Samples.day + 1000000) c)) = [2%nat]
  /\ ids (fst (get_active_ads (Samples.day + 1000000) c)) = [1%nat].
Proof. vm_compute. split; reflexivity. Qed.

(** [delete_ad] when every asset call it makes answers: the record goes. *)
Lemma delete_ad_removes_record cloud i ds a :
  find (by_id i) ds = Some a ->
  (forall p, sponsor_logo_public_id a = Some p ->
             uploader_destroy cloud p <> DestroyRaises) ->
  (forall p, ad_image_public_id a = Some p ->
             uploader_destroy cloud p <> DestroyRaises) ->
  delete_ad cloud (WellFormed i) (Collection ds [])
  = (inr (Message "Ad deleted successfully", 200),
     Collection (remove_first (by_id i) ds) []).
Proof.
  intros Ha Hlogo Himage. unfold by_id in *.
  unfold delete_ad, try_except, bind, ObjectId, find_one, delete_one, ret.
  rewrite db_call_healthy; simpl. unfold by_id. rewrite Ha.
  unfold destroy_if_present, destroy, bind, ret, raise.
  destruct (sponsor_logo_public_id a) as [p|];
    [specialize (Hlogo p eq_refl); destruct (uploader_destroy cloud p);
     [contradiction|]|];
    (destruct (ad_image_public_id a) as [q|];
     [specialize (Himage q eq_refl); destruct (uploader_destroy cloud q);
      [contradiction|]|]);
    rewrite db_call_healthy; reflexivity.
Qed.

(** [delete_ad] when the asset call for the logo raises: the handler
    answers 500 and the record stays. *)
Lemma delete_ad_stops_when_destroy_raises cloud i c a p :
  db_faults c = [] ->
  lookup _id i c = Some a ->
  sponsor_logo_public_id a = Some p ->
  uploader_destroy cloud p = DestroyRaises ->
  delete_ad cloud (WellFormed i) c
  = (inr (Err (str CloudinaryError), 500), c).
Proof.
  destruct c as [ds fs]; unfold lookup; simpl. intros -> Ha Hp Hraise.
  unfold delete_ad, try_except, bind, ObjectId, find_one, ret.
  rewrite db_call_healthy; simpl. fold (by_id i). unfold by_id. rewrite Ha.
  unfold destroy_if_present, destroy, bind, raise. rewrite Hp, Hraise.
  reflexivity.
Qed.

(** C4, at the failing input: an ad with an uploaded logo, an asset
    store whose calls raise.  The delete request is answered 500 and the
    ad is still stored. *)
Theorem delete_ad_keeps_record_when_asset_delete_raises :
  let a := Samples.promo 1 0 Samples.day true (Some "sponsored_ads/logos/acme") in
  let c := Collection [a] [] in
  delete_ad Samples.cloud_down (WellFormed 1) c
  = (inr (Err "asset store operation failed", 500), c)
  /\ lookup _id 1 (snd (delete_ad Samples.cloud_down (WellFormed 1) c)) = Some a.
Proof. vm_compute. split; reflexivity. Qed.
End AdFacts.

(** ** Both sweeps *)

(** C9. On stores that answer, a second presence sweep at the same time
    leaves the users as the first left them, and a second ad-expiry sweep at
    the same time matches no ad, prints nothing and leaves the ads as the
    first left them. *)
Theorem sweeps_are_idempotent cfg now now'
        (cu : Users.users_collection) (ca : SponsoredAds.ads_collection) :
  db_faults cu = [] ->
  db_faults ca = [] ->
  snd (Users.check_user_status cfg now (snd (Users.check_user_status cfg now cu)))
  = snd (Users.check_user_status cfg now cu)
  /\ SponsoredAds.check_expired_ads now' (snd (SponsoredAds.check_expired_ads now' ca))
     = (inr Nothing, snd (SponsoredAds.check_expired_ads now' ca)).
Proof.
  intros Hu Ha. split.
  - rewrite (presence_sweep_idempotent cfg now cu Hu). reflexivity.
  - apply ad_sweep_idempotent, Ha.
Qed.

Lemma sweeps_are_idempotent_witness :
  snd (Users.check_user_status Samples.cfg (timedelta_minutes 31)
         (snd (Users.check_user_status Samples.cfg (timedelta_minutes 31)
                 (Samples.only (Samples.ada "online")))))
  = snd (Users.check_user_status Samples.cfg (timedelta_minutes 31)
           (Samples.only (Samples.ada "online")))
  /\ SponsoredAds.check_expired_ads (3 * Samples.day)
       (snd (SponsoredAds.check_expired_ads (3 * Samples.day)
               (Collection [Samples.promo 1 0 (2 * Samples.day) true None] [])))
     = (inr Nothing,
        snd (SponsoredAds.check_expired_ads (3 * Samples.day)
               (Collection [Samples.promo 1 0 (2 * Samples.day) true None] []))).
Proof.
  apply (sweeps_are_idempotent Samples.cfg (timedelta_minutes 31) (3 * Samples.day)
           (Samples.only (Samples.ada "online"))
           (Collection [Samples.promo 1 0 (2 * Samples.day) true None] [])).
  - reflexivity.
  - reflexivity.
Defined.

(** ** Cascading delete of a listing *)

Section WearFacts.
Import FacultyWear.

(** [delete_from_cloudinary] always returns, and touches no state. *)
Lemma delete_from_cloudinary_answers {S} cloud url (s : S) :
  exists b, delete_from_cloudinary cloud url s = (inr b, s).
Proof.
  unfold delete_from_cloudinary, try_except, bind, from_end, destroy, ret, raise.
  destruct url as [url|]; [|eauto].
  destruct (negb (truthy (Some url)) || negb (contains "cloudinary.com" url))%bool;
    [eauto|].
  destruct (nth_error (rev (split "/" url)) (2 - 1)); [|eauto].
  destruct (nth_error (rev (split "/" url)) (1 - 1)); [|eauto].
  destruct (uploader_destroy cloud _); eauto.
Qed.

(** The sibling path: whatever the asset store does, deleting a stored
    listing answers 200 and removes the record. *)
Lemma delete_wear_removes_record cloud i ds w :
  find (by_id i) ds = Some w ->
  delete_wear cloud (WellFormed i) (Collection ds [])
  = (inr (StatusSuccess "Product deleted successfully", 200),
     Collection (remove_first (by_id i) ds) []).
Proof.
  intros Hw. unfold by_id in *.
  unfold delete_wear, try_except, bind, ObjectId, find_one, delete_one, ret.
  cbn [ObjectId_is_valid negb]. rewrite db_call_healthy. cbn [fst snd].
  unfold by_id. rewrite Hw.
  destruct (truthy (image_url w) && contains "cloudinary.com" (get (image_url w) ""))%bool.
  - destruct (delete_from_cloudinary_answers cloud (image_url w) (Collection ds []))
      as (b & ->).
    rewrite db_call_healthy. cbn [fst snd]. rewrite Hw. reflexivity.
  - rewrite db_call_healthy. cbn [fst snd]. rewrite Hw. reflexivity.
Qed.

Example delete_wear_with_asset_store_down :
  let c := Collection
             [Samples.shirt 1
                (Some "https://res.cloudinary.com/demo/image/upload/v1/faculty_wear/shirt.jpg")]
             [] in
  delete_wear Samples.cloud_down (WellFormed 1) c
  = (inr (StatusSuccess "Product deleted successfully", 200), Collection [] []).
Proof. vm_compute. reflexivity. Qed.
End WearFacts.

(** ** Sign-in *)

Section SigninFacts.
Import Users.

Lemma list_ascii_of_string_app (s t : string) :
  list_ascii_of_string (s ++ t)
  = (list_ascii_of_string s ++ list_ascii_of_string t)%list.
Proof. induction s as [|c s IH]; simpl; [reflexivity|]. rewrite IH. reflexivity. Qed.

Lemma metachar_false (c : ascii) :
  Regex.metachar c = false ->
  Ascii.eqb c "." = false /\ Ascii.eqb c "*" = false.
Proof.
  unfold Regex.metachar; simpl. intros H.
  apply Bool.orb_false_elim in H. destruct H as [Hdot H].
  apply Bool.orb_false_elim in H. destruct H as [Hstar _].
  split; assumption.
Qed.

Lemma parse_cons (c : ascii) (l : list ascii) :
  Regex.parse (c :: l)
  = match Regex.parse_atom c with
    | None => None
    | Some a =>
        match l with
        | q :: l' =>
            if Ascii.eqb q "*"
            then option_map (cons (Regex.Star a)) (Regex.parse l')
            else option_map (cons (Regex.One a)) (Regex.parse l)
        | [] => option_map (cons (Regex.One a)) (Regex.parse l)
        end
    end.
Proof. destruct l; reflexivity. Qed.

(** A plain string parses to the sequence of its characters. *)
Lemma parse_plain (l : list ascii) :
  forallb (fun c => negb (Regex.metachar c)) l = true ->
  Regex.parse l = Some (map (fun c => Regex.One (Regex.Lit c)) l).
Proof.
  induction l as [|c l IH]; [reflexivity|].
  intros H. simpl in H. apply Bool.andb_true_iff in H. destruct H as [Hc Hl].
  apply Bool.negb_true_iff in Hc. destruct (metachar_false c Hc) as [Hdot _].
  rewrite parse_cons. unfold Regex.parse_atom. rewrite Hdot, Hc.
  rewrite (IH Hl). destruct l as [|q l']; [reflexivity|].
  simpl in Hl. apply Bool.andb_true_iff in Hl. destruct Hl as [Hq _].
  apply Bool.negb_true_iff in Hq. destruct (metachar_false q Hq) as [_ Hstar].
  rewrite Hstar. reflexivity.
Qed.

Lemma compile_anchored (n : string) :
  Regex.compile ("^" ++ n ++ "$") = Regex.parse (list_ascii_of_string n).
Proof.
  unfold Regex.compile. simpl. rewrite list_ascii_of_string_app. simpl.
  rewrite rev_unit, rev_involutive. reflexivity.
Qed.

(** A sequence of literals matches the subjects that begin with the same
    characters up to letter case and end there, or one newline later. *)
Lemma matches_literals (l t : list ascii) :
  Regex.matches (map (fun c => Regex.One (Regex.Lit c)) l) t = true <->
  exists t1 t2, t = (t1 ++ t2)%list
                /\ map Regex.fold_case l = map Regex.fold_case t1
                /\ Regex.at_end t2 = true.
Proof.
  revert t. induction l as [|a l IH]; intros t; simpl.
  - split.
    + intros H. exists [], t. auto.
    + intros (t1 & t2 & -> & H1 & H2). destruct t1; [exact H2|discriminate].
  - destruct t as [|c t].
    + split; [discriminate|].
      intros (t1 & t2 & Ht & H1 & _). destruct t1; discriminate.
    + rewrite Bool.andb_true_iff, IH, Ascii.eqb_eq. split.
      * intros (Hc & t1 & t2 & -> & H1 & H2).
        exists (c :: t1), t2. simpl. rewrite Hc, H1. auto.
      * intros (t1 & t2 & Ht & H1 & H2). destruct t1 as [|c' t1]; [discriminate|].
        simpl in Ht, H1. injection Ht as <- ->. injection H1 as Hc H1.
        split; [exact Hc|]. exists t1, t2. auto.
Qed.

(** Where the code does what the interface says: a nickname without
    pattern characters selects the stored nicknames equal to it up to letter
    case, and those followed by one newline. *)
Lemma plain_nickname_is_matched_exactly (n : string) :
  Regex.plain n = true ->
  exists re,
    Regex.compile ("^" ++ n ++ "$") = Some re
    /\ forall s, Regex.search re s = true <->
                 exists s1 s2, s = s1 ++ s2
                               /\ Regex.eq_ignoring_case n s1 = true
                               /\ Regex.at_end (list_ascii_of_string s2) = true.
Proof.
  intros Hn. eexists. split.
  - rewrite compile_anchored. apply parse_plain. exact Hn.
  - intros s. unfold Regex.search. rewrite matches_literals. split.
    + intros (t1 & t2 & Ht & H1 & H2).
      exists (string_of_list_ascii t1), (string_of_list_ascii t2).
      split; [|split].
      * rewrite <- (string_of_list_ascii_of_string s), Ht.
        clear. induction t1 as [|c t1 IH]; simpl; [reflexivity|].
        rewrite IH. reflexivity.
      * unfold Regex.eq_ignoring_case, Regex.lower.
        rewrite list_ascii_of_string_of_list_ascii, H1. apply String.eqb_refl.
      * rewrite list_ascii_of_string_of_list_ascii. exact H2.
    + intros (s1 & s2 & -> & H1 & H2).
      exists (list_ascii_of_string s1), (list_ascii_of_string s2).
      split; [apply list_ascii_of_string_app|]. split; [|exact H2].
      unfold Regex.eq_ignoring_case, Regex.lower in H1.
      apply String.eqb_eq in H1.
      rewrite <- (list_ascii_of_string_of_list_ascii
                    (map Regex.fold_case (list_ascii_of_string n))), H1.
      apply list_ascii_of_string_of_list_ascii.
Qed.

(** A nickname in another letter case signs in. *)
Example signin_ignores_case :
  fst (signin Samples.check_password_hash
              (Samples.sign_in_as "JoHn" "correct horse") 0 0
              (Samples.only Samples.john))
  = inr (SignedIn (TokenPayload 2 "john" (timedelta_hours 2))
                  (sanitize_user_data Samples.john), 200).
Proof. vm_compute. reflexivity. Qed.

(** C7, at the failing inputs.  The nickname is spliced into the pattern
    as it is, so a dot in it stands for any character: ["j.hn"] and
    [".*"], neither equal to ["john"] in any letter case, sign in as
    ["john"] with that user's password; and the member ["j.doe"], giving
    the very nickname and password stored, is answered 401 because the
    pattern finds ["jxdoe"] first. *)
Theorem signin_takes_the_nickname_as_a_pattern :
  Regex.eq_ignoring_case "j.hn" (nickname Samples.john) = false
  /\ fst (signin Samples.check_password_hash
                 (Samples.sign_in_as "j.hn" "correct horse") 0 0
                 (Samples.only Samples.john))
     = inr (SignedIn (TokenPayload 2 "john" (timedelta_hours 2))
                     (sanitize_user_data Samples.john), 200)
  /\ Regex.eq_ignoring_case ".*" (nickname Samples.john) = false
  /\ fst (signin Samples.check_password_hash
                 (Samples.sign_in_as ".*" "correct horse") 0 0
                 (Samples.only Samples.john))
     = inr (SignedIn (TokenPayload 2 "john" (timedelta_hours 2))
                     (sanitize_user_data Samples.john), 200)
  /\ Regex.eq_ignoring_case "j.doe" (nickname Samples.j_doe) = true
  /\ Samples.check_password_hash (password Samples.j_doe) "battery staple" = true
  /\ fst (signin Samples.check_password_hash
                 (Samples.sign_in_as "j.doe" "battery staple") 0 0
                 (Collection [Samples.jxdoe; Samples.j_doe] []))
     = inr (Err "Invalid credentials", 401).
Proof. vm_compute. repeat split; reflexivity. Qed.
End SigninFacts.

(** * Further properties *)

(** ** Presence engine: heartbeat, read and sweep together *)

Section PresenceMore.
Import Users.
Local Arguments option_eqb : simpl never.

Lemma by_id_user_false_iff i (x : user) : by_id i x = false <-> _id x <> i.
Proof. unfold by_id, has_id. apply Nat.eqb_neq. Qed.

Lemma update_first_none {D} (p : D -> bool) (f : D -> D) (ds : list D) :
  find p ds = None -> update_first p f ds = ds.
Proof.
  induction ds as [|d ds IH]; simpl; [reflexivity|].
  destruct (p d); [discriminate|]. intros H. rewrite (IH H). reflexivity.
Qed.

(** The status read on a store that answers, case by case. *)
Lemma read_run tok_user cfg now i ds u t :
  find (by_id i) ds = Some u ->
  last_active u = Some t ->
  get_user_status (ValidToken tok_user) cfg now (WellFormed i) (Collection ds [])
  = (inr (StatusInfo (recompute cfg now t (get (status u) "offline")) (Some t)
                     (Some (first_name u)) (Some (department u)), 200),
     Collection
       (if option_eqb String.eqb
             (Some (recompute cfg now t (get (status u) "offline"))) (status u)
        then ds
        else update_first (by_id i)
               (set_status (recompute cfg now t (get (status u) "offline"))) ds)
       []).
Proof.
  intros Hu Ht.
  unfold get_user_status, requires_auth, try_except, bind, ObjectId,
    find_one_projected, find_one, ret, bind.
  rewrite db_call_healthy; simpl. rewrite Hu; simpl. rewrite Ht.
  destruct (option_eqb String.eqb _ (status u)); reflexivity.
Qed.

Lemma read_run_never_active tok_user cfg now i ds u :
  find (by_id i) ds = Some u ->
  last_active u = None ->
  get_user_status (ValidToken tok_user) cfg now (WellFormed i) (Collection ds [])
  = (inr (StatusInfo (get (status u) "offline") None
                     (Some (first_name u)) (Some (department u)), 200),
     Collection ds []).
Proof.
  intros Hu Ht.
  unfold get_user_status, requires_auth, try_except, bind, ObjectId,
    find_one_projected, find_one, ret, bind.
  rewrite db_call_healthy; simpl. rewrite Hu; simpl. rewrite Ht. reflexivity.
Qed.

Lemma read_run_unknown tok_user cfg now i ds :
  find (by_id i) ds = None ->
  get_user_status (ValidToken tok_user) cfg now (WellFormed i) (Collection ds [])
  = (inr (Err "User not found", 404), Collection ds []).
Proof.
  intros Hu.
  unfold get_user_status, requires_auth, try_except, bind, ObjectId,
    find_one_projected, find_one, ret, bind.
  rewrite db_call_healthy; simpl. rewrite Hu. reflexivity.
Qed.

Lemma recompute_idempotent cfg now t s :
  recompute cfg now t (recompute cfg now t s) = recompute cfg now t s.
Proof.
  unfold recompute.
  destruct (Qltb (inject_Z (OFFLINE_THRESHOLD cfg)) _); [reflexivity|].
  destruct (Qltb (inject_Z (IDLE_THRESHOLD cfg)) _); reflexivity.
Qed.

(** X1. A status read repeated at the same time on a store that answers
    gives the same response and writes nothing more: whatever the first read
    corrected stays corrected. *)
Theorem status_read_is_stable tok cfg now id c :
  db_faults c = [] ->
  get_user_status tok cfg now id (snd (get_user_status tok cfg now id c))
  = get_user_status tok cfg now id c.
Proof.
  destruct c as [ds fs]; simpl; intros ->.
  destruct tok as [| | |tok_user]; try reflexivity.
  destruct id as [i|]; [|reflexivity].
  destruct (find (by_id i) ds) as [u|] eqn:Hu.
  - destruct (last_active u) as [t|] eqn:Ht.
    + rewrite (read_run tok_user cfg now i ds u t Hu Ht). cbn [snd].
      set (s := recompute cfg now t (get (status u) "offline")).
      destruct (option_eqb String.eqb (Some s) (status u)) eqn:E.
      * rewrite (read_run tok_user cfg now i ds u t Hu Ht). fold s.
        rewrite E. reflexivity.
      * assert (Hu' : find (by_id i) (update_first (by_id i) (set_status s) ds)
                      = Some (set_status s u)).
        { apply (find_update_first _id i (set_status s) ds u (set_status_id s) Hu). }
        rewrite (read_run tok_user cfg now i _ (set_status s u) t Hu' Ht).
        simpl status. simpl get. unfold s at 1 2 3 4.
        rewrite recompute_idempotent. fold s.
        replace (option_eqb String.eqb (Some s) (Some s)) with true
          by (symmetry; apply option_string_eqb_eq; reflexivity).
        reflexivity.
    + rewrite (read_run_never_active tok_user cfg now i ds u Hu Ht). cbn [snd].
      apply (read_run_never_active tok_user cfg now i ds u Hu Ht).
  - rewrite (read_run_unknown tok_user cfg now i ds Hu). cbn [snd].
    apply (read_run_unknown tok_user cfg now i ds Hu).
Qed.

Lemma status_read_is_stable_witness :
  get_user_status (ValidToken (WellFormed 1)) Samples.cfg (timedelta_minutes 31)
    (WellFormed 1)
    (snd (get_user_status (ValidToken (WellFormed 1)) Samples.cfg
            (timedelta_minutes 31) (WellFormed 1)
            (Samples.only (Samples.ada "online"))))
  = get_user_status (ValidToken (WellFormed 1)) Samples.cfg (timedelta_minutes 31)
      (WellFormed 1) (Samples.only (Samples.ada "online")).
Proof.
  apply (status_read_is_stable (ValidToken (WellFormed 1)) Samples.cfg
           (timedelta_minutes 31) (WellFormed 1)
           (Samples.only (Samples.ada "online"))).
  reflexivity.
Defined.

Lemma clear_status_set_status s u : clear_status (set_status s u) = clear_status u.
Proof. reflexivity. Qed.

Lemma clear_status_update_first p s ds :
  map clear_status (update_first p (set_status s) ds) = map clear_status ds.
Proof.
  induction ds as [|d ds IH]; simpl; [reflexivity|].
  destruct (p d); simpl; [reflexivity|]. rewrite IH. reflexivity.
Qed.

Lemma clear_status_set_where p s ds :
  map clear_status (map (set_where p (set_status s)) ds) = map clear_status ds.
Proof.
  rewrite map_map. apply map_ext. intros u. unfold set_where.
  destruct (p u); reflexivity.
Qed.

(** X2. Whatever the token, the identifier, the clock and the faults of
    the store, the status read and the sweep leave every document in place
    and change no field other than [status]. *)
Theorem presence_engine_writes_status_only tok cfg now id c :
  map clear_status (docs (snd (get_user_status tok cfg now id c)))
  = map clear_status (docs c)
  /\ map clear_status (docs (snd (check_user_status cfg now c)))
     = map clear_status (docs c).
Proof.
  destruct c as [ds fs]. split.
  - destruct tok as [| | |tok_user]; try reflexivity.
    destruct id as [i|]; [|reflexivity].
    unfold get_user_status, requires_auth, try_except, bind, ObjectId,
      find_one_projected, find_one, update_one, ret, bind, db_call; simpl.
    destruct fs as [|[|] fs]; simpl; try reflexivity;
      (destruct (find (by_id i) ds) as [u|]; simpl; [|reflexivity]);
      (destruct (last_active u); [|reflexivity]);
      (destruct (negb _); [|reflexivity]);
      try (simpl; apply clear_status_update_first);
      destruct fs as [|[|] fs]; simpl; try reflexivity;
      apply clear_status_update_first.
  - unfold check_user_status, try_except, bind, update_many, ret, db_call; simpl.
    destruct fs as [|[|] fs]; simpl; try reflexivity;
      try (rewrite !clear_status_set_where; reflexivity);
      destruct fs as [|[|] fs]; simpl;
      rewrite ?clear_status_set_where; reflexivity.
Qed.



Lemma sweep_user_never_active cfg now u :
  last_active u = None -> sweep_user cfg now u = u.
Proof.
  intros Ht. unfold sweep_user, set_where, idle_query, offline_query, last_active_lt.
  rewrite Ht, !Bool.andb_false_r. simpl. rewrite Ht, Bool.andb_false_r.
  reflexivity.
Qed.



Lemma heartbeat_run i ds t_active t_seen :
  user_heartbeat (ValidToken (WellFormed i)) t_active t_seen (Collection ds [])
  = (inr (Success, 200),
     Collection (update_first (by_id i) (set_presence "online" t_active t_seen) ds)
                []).
Proof. reflexivity. Qed.



(** X5. A heartbeat carrying a valid token for a user that is not stored
    is answered 200 all the same, and stores nothing. *)
Theorem heartbeat_of_unknown_user_stores_nothing i c t_active t_seen :
  db_faults c = [] ->
  lookup _id i c = None ->
  user_heartbeat (ValidToken (WellFormed i)) t_active t_seen c
  = (inr (Success, 200), c).
Proof.
  intros Hf Hu. destruct c as [ds fs]; unfold lookup in Hu; simpl in Hf, Hu; subst fs.
  rewrite heartbeat_run. rewrite (update_first_none _ _ _ Hu). reflexivity.
Qed.

Lemma heartbeat_of_unknown_user_stores_nothing_witness :
  user_heartbeat (ValidToken (WellFormed 9)) 40 41 (Samples.only Samples.john)
  = (inr (Success, 200), Samples.only Samples.john).
Proof.
  apply (heartbeat_of_unknown_user_stores_nothing 9%nat
           (Samples.only Samples.john) 40 41);
    reflexivity.
Defined.


End PresenceMore.

(** ** Sign-in: what it stores *)

Section SigninMore.
Import Users.

(** X7. Whatever the request, the password check and the faults of the
    store, a sign-in that is not answered 200 leaves every stored document
    as it was: a refused sign-in never stamps [last_login]. *)
Theorem refused_signin_writes_nothing check data utcnow now c r c' :
  signin check data utcnow now c = (inr r, c') ->
  snd r <> 200 ->
  docs c' = docs c.
Proof.
  destruct c as [ds fs].
  unfold signin, try_except, bind, find_one_nickname_regex, find_one,
    update_one, raise, ret, db_call, jsonify.
  destruct data as [[[n|] [p|]]|]; simpl;
    try (intros [= <- <-] _; reflexivity).
  destruct (Regex.compile _) as [re|]; simpl;
    [|intros [= <- <-] _; reflexivity].
  destruct fs as [|[|] fs]; simpl;
    try (intros [= <- <-] _; reflexivity);
    (destruct (find _ ds) as [u|]; simpl;
     [|intros [= <- <-] _; reflexivity]);
    (destruct (check (password u) p); simpl;
     [|intros [= <- <-] _; reflexivity]);
    try (intros [= <- <-] Hcode; simpl in Hcode; congruence);
    destruct fs as [|[|] fs]; simpl;
    intros [= <- <-] Hcode; simpl in Hcode; congruence || reflexivity.
Qed.

Lemma refused_signin_writes_nothing_witness :
  docs (Samples.only Samples.john) = docs (Samples.only Samples.john).
Proof.
  apply (refused_signin_writes_nothing Samples.check_password_hash
           (Samples.sign_in_as "john" "wrong horse") 0 7 (Samples.only Samples.john)
           (Err "Invalid credentials", 401) (Samples.only Samples.john)).
  - reflexivity.
  - vm_compute. discriminate.
Defined.

Lemma signin_run check n p utcnow now ds re u :
  Regex.compile ("^" ++ n ++ "$") = Some re ->
  find (fun v => Regex.search re (nickname v)) ds = Some u ->
  check (password u) p = true ->
  signin check (Some (Credentials (Some n) (Some p))) utcnow now (Collection ds [])
  = (inr (SignedIn (TokenPayload (_id u) (nickname u) (utcnow + timedelta_hours 2))
                   (sanitize_user_data u), 200),
     Collection (update_first (by_id (_id u)) (set_last_login now) ds) []).
Proof.
  intros Hre Hu Hp.
  unfold signin, try_except, bind, find_one_nickname_regex, find_one,
    update_one, raise, ret, jsonify.
  rewrite Hre. rewrite db_call_healthy. cbn [fst snd]. rewrite Hu, Hp.
  cbn [negb]. rewrite db_call_healthy. reflexivity.
Qed.


End SigninMore.

(** ** Ad lifecycle: sweep, listings and extension together *)

Section AdMore.
Import SponsoredAds.

Lemma insert_desc_sorted a l :
  StronglySorted newer_first l -> StronglySorted newer_first (insert_desc a l).
Proof.
  induction l as [|b l IH]; simpl; intros Hs.
  - constructor; constructor.
  - inversion Hs as [|? ? Hl Hb]; subst.
    destruct (Z.leb_spec (created_at b) (created_at a)).
    + constructor; [exact Hs|]. constructor; [assumption|].
      rewrite Forall_forall in *. intros x Hx. specialize (Hb x Hx).
      unfold newer_first in *. lia.
    + constructor; [apply IH, Hl|].
      rewrite Forall_forall in *. intros x Hx.
      apply (Permutation_in _ (insert_desc_perm a l)) in Hx.
      destruct Hx as [<-|Hx]; [unfold newer_first; lia|auto].
Qed.

Lemma sort_created_desc_sorted l : StronglySorted newer_first (sort_created_desc l).
Proof.
  induction l as [|a l IH]; simpl; [constructor|].
  apply insert_desc_sorted, IH.
Qed.

(** X9. On a store that answers, both listings come newest first: in the
    active and in the expired listing every ad is at least as recent, by
    [created_at], as every ad listed after it. *)
Theorem listings_are_newest_first now c :
  db_faults c = [] ->
  exists active expired,
    get_active_ads now c = (inr (Ads active, 200), c)
    /\ get_expired_ads now c = (inr (Ads expired, 200), c)
    /\ StronglySorted newer_first active
    /\ StronglySorted newer_first expired.
Proof.
  destruct c as [ds fs]; simpl; intros ->.
  exists (sort_created_desc (filter (active_query now) ds)),
         (sort_created_desc (filter (expired_query now) ds)).
  split; [apply get_active_ads_healthy|].
  split; [apply get_expired_ads_healthy|].
  split; apply sort_created_desc_sorted.
Qed.

Lemma listings_are_newest_first_witness :
  exists active expired,
    get_active_ads Samples.day
      (Collection [Samples.promo 1 0 (9 * Samples.day) true None;
                   Samples.promo 2 5 (9 * Samples.day) true None] [])
    = (inr (Ads active, 200),
       Collection [Samples.promo 1 0 (9 * Samples.day) true None;
                   Samples.promo 2 5 (9 * Samples.day) true None] [])
    /\ get_expired_ads Samples.day
         (Collection [Samples.promo 1 0 (9 * Samples.day) true None;
                      Samples.promo 2 5 (9 * Samples.day) true None] [])
       = (inr (Ads expired, 200),
          Collection [Samples.promo 1 0 (9 * Samples.day) true None;
                      Samples.promo 2 5 (9 * Samples.day) true None] [])
    /\ StronglySorted newer_first active
    /\ StronglySorted newer_first expired.
Proof.
  apply (listings_are_newest_first Samples.day
           (Collection [Samples.promo 1 0 (9 * Samples.day) true None;
                        Samples.promo 2 5 (9 * Samples.day) true None] [])).
  reflexivity.
Defined.

(** X10. On a store that answers, at one and the same time no ad is in
    both listings, and every stored ad flagged active is in one of them. *)
Theorem listings_split_the_flagged_ads now c :
  db_faults c = [] ->
  exists active expired,
    get_active_ads now c = (inr (Ads active, 200), c)
    /\ get_expired_ads now c = (inr (Ads expired, 200), c)
    /\ (forall a, In a active -> In a expired -> False)
    /\ (forall a, In a (docs c) -> is_active a = true ->
                  In a active \/ In a expired).
Proof.
  destruct c as [ds fs]; simpl; intros ->.
  exists (sort_created_desc (filter (active_query now) ds)),
         (sort_created_desc (filter (expired_query now) ds)).
  split; [apply get_active_ads_healthy|].
  split; [apply get_expired_ads_healthy|].
  split.
  - intros a Ha He.
    apply in_sort_created_desc, filter_In in Ha. destruct Ha as [_ Ha].
    apply in_sort_created_desc, filter_In in He. destruct He as [_ He].
    apply active_query_spec in Ha. apply expired_query_spec in He. lia.
  - intros a Hin Hact. destruct (Z.lt_ge_cases now (expires_at a)).
    + left. apply in_sort_created_desc, filter_In. split; [exact Hin|].
      apply active_query_spec. auto.
    + right. apply in_sort_created_desc, filter_In. split; [exact Hin|].
      apply expired_query_spec. lia.
Qed.

Lemma listings_split_the_flagged_ads_witness :
  exists active expired,
    get_active_ads (3 * Samples.day)
      (Collection [Samples.promo 1 0 (2 * Samples.day) true None] [])
    = (inr (Ads active, 200),
       Collection [Samples.promo 1 0 (2 * Samples.day) true None] [])
    /\ get_expired_ads (3 * Samples.day)
         (Collection [Samples.promo 1 0 (2 * Samples.day) true None] [])
       = (inr (Ads expired, 200),
          Collection [Samples.promo 1 0 (2 * Samples.day) true None] [])
    /\ (forall a, In a active -> In a expired -> False)
    /\ (forall a, In a [Samples.promo 1 0 (2 * Samples.day) true None] ->
                  is_active a = true -> In a active \/ In a expired).
Proof.
  apply (listings_split_the_flagged_ads (3 * Samples.day)
           (Collection [Samples.promo 1 0 (2 * Samples.day) true None] [])).
  reflexivity.
Defined.

Lemma active_query_after_sweep t t' a :
  t <= t' -> active_query t' (sweep_ad t a) = active_query t' a.
Proof.
  intros Ht. unfold sweep_ad, set_where.
  destruct (sweep_query t a) eqn:E; [|reflexivity].
  unfold sweep_query in E. apply Bool.andb_true_iff in E. destruct E as [E _].
  apply Z.leb_le in E. unfold active_query, set_is_active; simpl.
  destruct (Z.ltb_spec t' (expires_at a)); [lia|].
  rewrite Bool.andb_false_r. reflexivity.
Qed.

Lemma active_ads_after_sweep t t' ds :
  t <= t' ->
  filter (active_query t') (map (sweep_ad t) ds) = filter (active_query t') ds.
Proof.
  intros Ht. induction ds as [|a ds IH]; simpl; [reflexivity|].
  rewrite (active_query_after_sweep t t' a Ht), IH.
  destruct (active_query t' a) eqn:E; [|reflexivity].
  f_equal. unfold sweep_ad, set_where.
  destruct (sweep_query t a) eqn:Es; [|reflexivity].
  unfold sweep_query in Es. apply Bool.andb_true_iff in Es. destruct Es as [Es _].
  apply Z.leb_le in Es. apply active_query_spec in E. lia.
Qed.

(** X11. On a store that answers, a sweep changes no active listing taken
    at the time of the sweep or later: what the sweep deactivates the
    listing had left out already. *)
Theorem ad_sweep_keeps_active_listing t t' c :
  db_faults c = [] ->
  t <= t' ->
  fst (get_active_ads t' (snd (check_expired_ads t c)))
  = fst (get_active_ads t' c).
Proof.
  destruct c as [ds fs]; simpl; intros -> Ht.
  rewrite check_expired_ads_healthy, !get_active_ads_healthy. cbn [fst].
  rewrite (active_ads_after_sweep t t' ds Ht). reflexivity.
Qed.

Lemma ad_sweep_keeps_active_listing_witness :
  fst (get_active_ads (4 * Samples.day)
         (snd (check_expired_ads (3 * Samples.day)
                 (Collection [Samples.promo 1 0 (2 * Samples.day) true None;
                              Samples.promo 2 0 (9 * Samples.day) true None] []))))
  = fst (get_active_ads (4 * Samples.day)
           (Collection [Samples.promo 1 0 (2 * Samples.day) true None;
                        Samples.promo 2 0 (9 * Samples.day) true None] [])).
Proof.
  apply (ad_sweep_keeps_active_listing (3 * Samples.day) (4 * Samples.day)
           (Collection [Samples.promo 1 0 (2 * Samples.day) true None;
                        Samples.promo 2 0 (9 * Samples.day) true None] [])).
  - reflexivity.
  - vm_compute. discriminate.
Defined.

Lemma flag_cleared_is_a_change now a :
  sweep_query now a = true -> changed ad_eqb (set_is_active false) a = true.
Proof.
  intros H. unfold sweep_query in H. apply Bool.andb_true_iff in H.
  destruct H as [_ H]. unfold changed, ad_eqb.
  destruct (ad_eq_dec (set_is_active false a) a) as [E|]; [|reflexivity].
  apply (f_equal is_active) in E. simpl in E.
  destruct (is_active a); discriminate.
Qed.

Lemma filter_ext_in_bool {A} (p q : A -> bool) (l : list A) :
  (forall x, In x l -> p x = q x) -> filter p l = filter q l.
Proof.
  induction l as [|x l IH]; simpl; intros H; [reflexivity|].
  rewrite (H x (or_introl eq_refl)), IH by auto. reflexivity.
Qed.

(** X12. One ad sweep on a store that answers: it prints the number of
    stored ads that were flagged active with [expires_at <= now], and
    nothing when there is none; afterwards every ad still flagged active
    expires after [now]; and each document is as before, or as before with
    only [is_active] cleared. *)
Theorem ad_sweep_settles_the_flags now c :
  db_faults c = [] ->
  exists c',
    check_expired_ads now c
    = (inr (match List.length (filter (sweep_query now) (docs c)) with
            | O => Nothing
            | S n => Deactivated (S n)
            end), c')
    /\ (forall a, In a (docs c') -> is_active a = true -> now < expires_at a)
    /\ Forall2 (fun a a' => a' = a \/ (is_active a = true /\ a' = set_is_active false a))
               (docs c) (docs c').
Proof.
  destruct c as [ds fs]; simpl; intros ->.
  exists (Collection (map (sweep_ad now) ds) []). split; [|split].
  - unfold check_expired_ads, try_except, bind, update_many, ret, db_call; simpl.
    rewrite (filter_ext_in_bool
               (fun d => (sweep_query now d && changed ad_eqb (set_is_active false) d)%bool)
               (sweep_query now)).
    + destruct (List.length (filter (sweep_query now) ds)); reflexivity.
    + intros a _. destruct (sweep_query now a) eqn:E; [|reflexivity].
      rewrite (flag_cleared_is_a_change now a E). reflexivity.
  - simpl. intros a' Hin Hact. apply in_map_iff in Hin.
    destruct Hin as (a & <- & _).
    pose proof (sweep_query_after_sweep now a) as Hq.
    unfold sweep_query in Hq. rewrite Hact in Hq. simpl in Hq.
    rewrite Bool.andb_true_r in Hq. apply Z.leb_gt in Hq. exact Hq.
  - simpl. induction ds as [|a ds IH]; simpl; constructor; [|exact IH].
    unfold sweep_ad, set_where. destruct (sweep_query now a) eqn:E; [|auto].
    right. split; [|reflexivity].
    unfold sweep_query in E. apply Bool.andb_true_iff in E. destruct E as [_ E].
    destruct (is_active a); [reflexivity|discriminate].
Qed.

Lemma ad_sweep_settles_the_flags_witness :
  exists c',
    check_expired_ads (3 * Samples.day)
      (Collection [Samples.promo 1 0 (2 * Samples.day) true None;
                   Samples.promo 2 0 (9 * Samples.day) true None] [])
    = (inr (match List.length
                    (filter (sweep_query (3 * Samples.day))
                            [Samples.promo 1 0 (2 * Samples.day) true None;
                             Samples.promo 2 0 (9 * Samples.day) true None]) with
            | O => Nothing
            | S n => Deactivated (S n)
            end), c')
    /\ (forall a, In a (docs c') -> is_active a = true ->
                  3 * Samples.day < expires_at a)
    /\ Forall2 (fun a a' => a' = a \/ (is_active a = true /\ a' = set_is_active false a))
               [Samples.promo 1 0 (2 * Samples.day) true None;
                Samples.promo 2 0 (9 * Samples.day) true None]
               (docs c').
Proof.
  apply (ad_sweep_settles_the_flags (3 * Samples.day)
           (Collection [Samples.promo 1 0 (2 * Samples.day) true None;
                        Samples.promo 2 0 (9 * Samples.day) true None] [])).
  reflexivity.
Defined.

Lemma extend_ad_run i ds a :
  find (by_id i) ds = Some a ->
  extend_ad (WellFormed i) (Collection ds [])
  = (inr (Message "Ad extended successfully", 200),
     Collection (update_first (by_id i)
                   (set_expiry (expires_at a + timedelta_days 7) true) ds) []).
Proof.
  intros Ha. unfold extend_ad, try_except, bind, ObjectId, find_one, update_one, ret.
  rewrite db_call_healthy. cbn [fst snd]. rewrite Ha.
  rewrite db_call_healthy. reflexivity.
Qed.

(** X13. Extending an ad that ran out more than seven days ago, on a
    store that answers: the ad is flagged active again but its new
    [expires_at] is still in the past, so it stays out of the active
    listing, is in the expired listing, and the next sweep clears its flag
    again. *)
Theorem extending_a_long_expired_ad_does_not_revive_it now i c a :
  db_faults c = [] ->
  lookup _id i c = Some a ->
  expires_at a + timedelta_days 7 <= now ->
  exists a' c',
    extend_ad (WellFormed i) c = (inr (Message "Ad extended successfully", 200), c')
    /\ lookup _id i c' = Some a'
    /\ is_active a' = true
    /\ expires_at a' = expires_at a + timedelta_days 7
    /\ (exists l, get_active_ads now c' = (inr (Ads l, 200), c') /\ ~ In a' l)
    /\ (exists l, get_expired_ads now c' = (inr (Ads l, 200), c') /\ In a' l)
    /\ option_map is_active (lookup _id i (snd (check_expired_ads now c')))
       = Some false.
Proof.
  intros Hf Ha Hold.
  destruct c as [ds fs]; unfold lookup in Ha; simpl in Hf, Ha; subst fs.
  set (a' := set_expiry (expires_at a + timedelta_days 7) true a).
  set (ds' := update_first (by_id i)
                (set_expiry (expires_at a + timedelta_days 7) true) ds).
  assert (Ha' : find (has_id _id i) ds' = Some a').
  { unfold ds', a', by_id.
    apply (find_update_first _id i
             (set_expiry (expires_at a + timedelta_days 7) true) ds a);
      [reflexivity|exact Ha]. }
  exists a', (Collection ds' []).
  split; [apply (extend_ad_run i ds a Ha)|].
  split; [exact Ha'|]. split; [reflexivity|]. split; [reflexivity|].
  split; [|split].
  - eexists. split; [apply get_active_ads_healthy|].
    intros Hin. apply in_sort_created_desc, filter_In in Hin.
    destruct Hin as [_ Hq]. apply active_query_spec in Hq.
    unfold a' in Hq; simpl in Hq. unfold timedelta_days in *. lia.
  - eexists. split; [apply get_expired_ads_healthy|].
    apply in_sort_created_desc, filter_In. split.
    + apply (find_some _ _ Ha').
    + apply expired_query_spec. unfold a'; simpl. unfold timedelta_days in *. lia.
  - rewrite check_expired_ads_healthy. unfold lookup; simpl.
    rewrite (find_map_same_id _id i (sweep_ad now) ds'), Ha'.
    + simpl. unfold sweep_ad, set_where, sweep_query, a'; simpl.
      unfold timedelta_days in *.
      replace (expires_at a + 604800000000 <=? now) with true
        by (symmetry; apply Z.leb_le; lia).
      reflexivity.
    + intros d. unfold sweep_ad, set_where. destruct (sweep_query now d); reflexivity.
Qed.

Lemma extending_a_long_expired_ad_does_not_revive_it_witness :
  exists a' c',
    extend_ad (WellFormed 1)
      (Collection [Samples.promo 1 0 Samples.day false None] [])
    = (inr (Message "Ad extended successfully", 200), c')
    /\ lookup _id 1 c' = Some a'
    /\ is_active a' = true
    /\ expires_at a' = Samples.day + timedelta_days 7
    /\ (exists l, get_active_ads (30 * Samples.day) c' = (inr (Ads l, 200), c')
                  /\ ~ In a' l)
    /\ (exists l, get_expired_ads (30 * Samples.day) c' = (inr (Ads l, 200), c')
                  /\ In a' l)
    /\ option_map is_active
         (lookup _id 1 (snd (check_expired_ads (30 * Samples.day) c')))
       = Some false.
Proof.
  apply (extending_a_long_expired_ad_does_not_revive_it (30 * Samples.day) 1%nat
           (Collection [Samples.promo 1 0 Samples.day false None] [])
           (Samples.promo 1 0 Samples.day false None)).
  - reflexivity.
  - reflexivity.
  - vm_compute. discriminate.
Defined.

(** X14. Whatever the form, the asset store and the faults of the store,
    a creation request that is not answered 201 stores nothing. *)
Theorem refused_ad_creation_stores_nothing cloud form now c r c' :
  create_sponsored_ad cloud form now c = (inr r, c') ->
  snd r <> 201 ->
  docs c' = docs c.
Proof.
  destruct c as [ds fs].
  unfold create_sponsored_ad, try_except, bind, int_with_default,
    upload_optional, upload, insert_one, raise, ret, db_call, jsonify.
  destruct (form_duration_days form); simpl;
    try (intros [= <- <-] _; reflexivity);
    (destruct (negb _); simpl; [intros [= <- <-] _; reflexivity|]);
    (destruct (file_given (files_sponsor_logo form)) as [logo|]; simpl;
     [destruct (uploader_upload cloud logo _); simpl;
      [intros [= <- <-] _; reflexivity|]|]);
    (destruct (file_given (files_ad_image form)) as [image|]; simpl;
     [destruct (uploader_upload cloud image _); simpl;
      [intros [= <- <-] _; reflexivity|]|]);
    destruct fs as [|[|] fs]; simpl;
    intros [= <- <-] Hcode; simpl in Hcode; congruence || reflexivity.
Qed.

Lemma refused_ad_creation_stores_nothing_witness :
  docs (Collection [Samples.promo 1 0 Samples.day true None] [])
  = docs (Collection [Samples.promo 1 0 Samples.day true None] []).
Proof.
  apply (refused_ad_creation_stores_nothing Samples.cloud_up
           (AdForm (Some "Sale") (Some "") (Some "Acme") (Some "08012345678")
                   Absent None None)
           Samples.day (Collection [Samples.promo 1 0 Samples.day true None] [])
           (Err "Missing required fields", 400)
           (Collection [Samples.promo 1 0 Samples.day true None] [])).
  - reflexivity.
  - vm_compute. discriminate.
Defined.

(** X15. Whatever the asset store and the faults of the store, a delete
    request for an ad either is answered 200 and removes the first document
    of that identifier, or is answered otherwise and removes nothing. *)
Theorem delete_ad_is_all_or_nothing cloud id c r c' :
  delete_ad cloud id c = (inr r, c') ->
  (snd r = 200
   /\ exists i, id = WellFormed i
                /\ docs c' = remove_first (by_id i) (docs c))
  \/ (snd r <> 200 /\ docs c' = docs c).
Proof.
  destruct c as [ds fs]. destruct id as [i|];
    [|intros [= <- <-]; right; split; [discriminate|reflexivity]].
  unfold delete_ad, try_except, bind, ObjectId, find_one, delete_one,
    destroy_if_present, destroy, raise, ret, db_call, jsonify.
  destruct fs as [|[|] fs]; simpl;
    try (intros [= <- <-]; right; split; [discriminate|reflexivity]);
    (destruct (find (by_id i) ds) as [a|]; simpl;
     [|intros [= <- <-]; right; split; [discriminate|reflexivity]]);
    (destruct (sponsor_logo_public_id a) as [p|]; simpl;
     [destruct (uploader_destroy cloud p); simpl;
      [intros [= <- <-]; right; split; [discriminate|reflexivity]|]|]);
    (destruct (ad_image_public_id a) as [q|]; simpl;
     [destruct (uploader_destroy cloud q); simpl;
      [intros [= <- <-]; right; split; [discriminate|reflexivity]|]|]);
    try (intros [= <- <-]; left; split; [reflexivity|]; exists i; split; reflexivity);
    destruct fs as [|[|] fs]; simpl; intros [= <- <-];
    try (right; split; [discriminate|reflexivity]);
    left; (split; [reflexivity|]); exists i; split; reflexivity.
Qed.

Lemma delete_ad_is_all_or_nothing_witness :
  (snd (Message "Ad deleted successfully", 200) = 200
   /\ exists i, WellFormed 1 = WellFormed i
                /\ docs (Collection (@nil ad) []) 
                   = remove_first (by_id i)
                       (docs (Collection [Samples.promo 1 0 Samples.day true None] [])))
  \/ (snd (Message "Ad deleted successfully", 200) <> 200
      /\ docs (Collection (@nil ad) [])
         = docs (Collection [Samples.promo 1 0 Samples.day true None] [])).
Proof.
  apply (delete_ad_is_all_or_nothing Samples.cloud_down (WellFormed 1)
           (Collection [Samples.promo 1 0 Samples.day true None] [])
           (Message "Ad deleted successfully", 200) (Collection [] [])).
  reflexivity.
Defined.
End AdMore.

(** ** Accounts: sign-up, bulk creation, deletion *)

Section AccountFacts.
Import Users.










Section SignupFacts.
Variables lower upper strip hash : string -> string.

Lemma validation_passes_iff data :
  negb (Nat.eqb (List.length (validate_signup_data data)) 0) = false
  <-> validate_signup_data data = [].
Proof.
  destruct (validate_signup_data data); simpl; split; congruence.
Qed.

Lemma find_fresh_id (ds : list user) (u : user) :
  find (by_id (fresh_id _id ds)) (ds ++ [with_id (fresh_id _id ds) u])
  = Some (with_id (fresh_id _id ds) u).
Proof.
  assert (H : forall l, (forall x, In x l -> (_id x < fresh_id _id ds)%nat) ->
                        find (by_id (fresh_id _id ds))
                             (l ++ [with_id (fresh_id _id ds) u])
                        = Some (with_id (fresh_id _id ds) u)).
  { induction l as [|x l IH]; simpl; intros Hl.
    - unfold by_id, has_id. simpl. rewrite Nat.eqb_refl. reflexivity.
    - unfold by_id at 1, has_id.
      destruct (Nat.eqb_spec (_id x) (fresh_id _id ds)) as [E|E].
      + specialize (Hl x (or_introl eq_refl)). lia.
      + apply IH. auto. }
  apply H. intros x Hx. apply (fresh_id_above _id ds x Hx).
Qed.

(** The sign-up of data that pass validation and meet no stored nickname
    or number, by the fault schedule of the store. *)
Lemma signup_run data now ds :
  validate_signup_data data = [] ->
  find (fun u => String.eqb (nickname u) (lower (data_nickname data))
                 || String.eqb (whatsapp u) (data_whatsapp data)) ds = None ->
  signup lower upper strip hash (Some data) now (Collection ds [])
  = (inr (Registered
            (sanitize_user_data
               (with_id (fresh_id _id ds) (new_user lower upper strip hash data now)))
            "Registration successful", 201),
     Collection (ds ++ [with_id (fresh_id _id ds)
                                (new_user lower upper strip hash data now)]) []).
Proof.
  intros Hv Hnone.
  unfold signup, try_except, bind, user_exists, create_user, find_one,
    insert_one, ret.
  rewrite (proj2 (validation_passes_iff data) Hv).
  rewrite db_call_healthy. cbn [fst snd]. rewrite Hnone.
  rewrite db_call_healthy. cbn [fst snd].
  rewrite db_call_healthy. cbn [fst snd].
  rewrite find_fresh_id. reflexivity.
Qed.


(** Every run of [signup]: either nothing is stored and the answer is not
    201, or the new document is appended and the answer is 201 or 500. *)
Lemma signup_cases data now c r c' :
  signup lower upper strip hash data now c = (inr r, c') ->
  (docs c' = docs c /\ (snd r = 400 \/ snd r = 500))
  \/ (exists d,
        data = Some d
        /\ validate_signup_data d = []
        /\ find (fun u => String.eqb (nickname u) (lower (data_nickname d))
                          || String.eqb (whatsapp u) (data_whatsapp d))
                (docs c) = None
        /\ docs c' = (docs c ++ [with_id (fresh_id _id (docs c))
                                         (new_user lower upper strip hash d now)])%list
        /\ (snd r = 201 \/ snd r = 500)).
Proof.
  destruct c as [ds fs]. destruct data as [d|];
    [|intros [= <- <-]; left; simpl; auto].
  unfold signup, try_except, bind, user_exists, create_user, find_one,
    insert_one, raise, ret.
  destruct (negb (Nat.eqb (List.length (validate_signup_data d)) 0)) eqn:Hv;
    [intros [= <- <-]; left; simpl; auto|].
  apply validation_passes_iff in Hv.
  destruct fs as [|[|] fs];
    [rewrite db_call_healthy|rewrite db_call_raises|rewrite db_call_answers];
    cbn [fst snd];
    try (intros [= <- <-]; left; simpl; auto; fail);
    (destruct (find _ ds) as [u|] eqn:Hfind;
     [intros [= <- <-]; left; simpl; auto|]).
  - rewrite db_call_healthy. cbn [fst snd]. rewrite db_call_healthy. cbn [fst snd].
    rewrite find_fresh_id. intros [= <- <-]. right. exists d. simpl. auto 10.
  - destruct fs as [|[|] fs];
      [rewrite db_call_healthy|rewrite db_call_raises|rewrite db_call_answers];
      cbn [fst snd];
      try (intros [= <- <-]; left; simpl; auto; fail).
    + rewrite db_call_healthy. cbn [fst snd]. rewrite find_fresh_id.
      intros [= <- <-]. right. exists d. simpl. auto 10.
    + destruct fs as [|[|] fs];
        [rewrite db_call_healthy|rewrite db_call_raises|rewrite db_call_answers];
        cbn [fst snd]; rewrite ?find_fresh_id;
        intros [= <- <-]; right; exists d; simpl; auto 10.
Qed.

(** X18. Whatever the faults of the store, a sign-up answered 400 (no
    data, failed validation, or a stored user with that lowered nickname or
    that WhatsApp number) stores nothing. *)
Theorem refused_signup_stores_nothing data now c r c' :
  signup lower upper strip hash data now c = (inr r, c') ->
  snd r = 400 ->
  docs c' = docs c.
Proof.
  intros Hrun Hcode. destruct (signup_cases data now c r c' Hrun)
    as [[Hd _]|(d & _ & _ & _ & _ & [H|H])]; [exact Hd| |];
    rewrite Hcode in H; discriminate.
Qed.

(** X19. A sign-up can be answered 500 and still have created the
    account: when the store answers the duplicate check and the insert and
    raises on the read-back, the new document is stored and the answer is
    the error. *)
Theorem signup_may_fail_after_storing data now ds fs :
  validate_signup_data data = [] ->
  find (fun u => String.eqb (nickname u) (lower (data_nickname data))
                 || String.eqb (whatsapp u) (data_whatsapp data)) ds = None ->
  signup lower upper strip hash (Some data) now
         (Collection ds (false :: false :: true :: fs))
  = (inr (Refused (str PyMongoError), 500),
     Collection (ds ++ [with_id (fresh_id _id ds)
                                (new_user lower upper strip hash data now)]) fs).
Proof.
  intros Hv Hnone.
  unfold signup, try_except, bind, user_exists, create_user, find_one,
    insert_one, ret.
  rewrite (proj2 (validation_passes_iff data) Hv).
  rewrite db_call_answers. cbn [fst snd]. rewrite Hnone.
  rewrite db_call_answers. cbn [fst snd].
  rewrite db_call_raises. reflexivity.
Qed.

Lemma no_duplicate_found data (ds : list user) :
  find (fun u => String.eqb (nickname u) (lower (data_nickname data))
                 || String.eqb (whatsapp u) (data_whatsapp data)) ds = None <->
  forall u, In u ds -> nickname u <> lower (data_nickname data)
                       /\ whatsapp u <> data_whatsapp data.
Proof.
  split.
  - intros H u Hu. pose proof (find_none _ _ H u Hu) as Hq.
    apply Bool.orb_false_iff in Hq. destruct Hq as [Hn Hw].
    apply String.eqb_neq in Hn. apply String.eqb_neq in Hw. auto.
  - intros H. destruct (find _ ds) as [u|] eqn:E; [|reflexivity].
    apply find_some in E. destruct E as [Hin Hq].
    destruct (H u Hin) as [Hn Hw].
    apply Bool.orb_true_iff in Hq. destruct Hq as [Hq|Hq];
      apply String.eqb_eq in Hq; contradiction.
Qed.

Lemma NoDup_map_snoc {A B} (f : A -> B) (l : list A) (x : A) :
  NoDup (map f l) -> (forall y, In y l -> f y <> f x) ->
  NoDup (map f (l ++ [x])).
Proof.
  intros Hl Hx. rewrite map_app. simpl.
  induction l as [|y l IH]; simpl.
  - constructor; [intros []|constructor].
  - inversion Hl as [|? ? Hy Hl']; subst. constructor.
    + rewrite in_app_iff. intros [H|[H|[]]]; [contradiction|].
      apply (Hx y (or_introl eq_refl)). symmetry. exact H.
    + apply IH; [exact Hl'|]. intros z Hz. apply Hx. right. exact Hz.
Qed.

Lemma signup_answers data now c :
  exists r c', signup lower upper strip hash data now c = (inr r, c').
Proof.
  unfold signup.
  apply (try_except_answers _ (fun e => (Refused (str e), 500))).
Qed.

(** X20. Whatever the request and the faults of the store, a sign-up
    keeps the stored WhatsApp numbers pairwise distinct; it keeps the stored
    nicknames pairwise distinct as well when stripping the nickname given
    does not change what it lowers to. *)
Theorem signup_keeps_numbers_and_nicknames_distinct data now c :
  NoDup (map whatsapp (docs c)) ->
  NoDup (map nickname (docs c)) ->
  NoDup (map whatsapp (docs (snd (signup lower upper strip hash data now c))))
  /\ ((forall d, data = Some d ->
                 lower (strip (data_nickname d)) = lower (data_nickname d)) ->
      NoDup (map nickname (docs (snd (signup lower upper strip hash data now c))))).
Proof.
  intros Hw Hn.
  destruct (signup_answers data now c) as (r & c' & Hrun).
  rewrite Hrun. cbn [snd].
  destruct (signup_cases data now c r c' Hrun)
    as [[-> _]|(d & -> & _ & Hnone & -> & _)]; [auto|].
  pose proof (proj1 (no_duplicate_found d (docs c)) Hnone) as Hnew. split.
  - apply NoDup_map_snoc; [exact Hw|]. intros y Hy. simpl.
    apply (Hnew y Hy).
  - intros Hstrip. apply NoDup_map_snoc; [exact Hn|]. intros y Hy. simpl.
    rewrite (Hstrip d eq_refl). apply (Hnew y Hy).
Qed.

(** X21. The duplicate check looks for the lowered nickname, the account
    is stored under the stripped and lowered one: when a stored user holds
    the latter and nobody holds the former or the WhatsApp number, the
    sign-up is answered 201 and a second document with the same nickname is
    stored. *)
Theorem signup_misses_a_padded_nickname data now c u :
  db_faults c = [] ->
  validate_signup_data data = [] ->
  In u (docs c) ->
  nickname u = lower (strip (data_nickname data)) ->
  (forall v, In v (docs c) ->
             nickname v <> lower (data_nickname data)
             /\ whatsapp v <> data_whatsapp data) ->
  exists u' c',
    signup lower upper strip hash (Some data) now c
    = (inr (Registered (sanitize_user_data u') "Registration successful", 201), c')
    /\ In u (docs c') /\ In u' (docs c')
    /\ _id u' <> _id u
    /\ nickname u' = nickname u.
Proof.
  intros Hf Hv Hu Hnick Hnew.
  destruct c as [ds fs]; simpl in Hf, Hu, Hnew; subst fs.
  eexists. eexists. split.
  - apply signup_run; [exact Hv|]. apply no_duplicate_found. exact Hnew.
  - simpl. rewrite !in_app_iff. split; [auto|]. split; [simpl; auto|].
    split; [|symmetry; exact Hnick].
    pose proof (fresh_id_above _id ds u Hu). lia.
Qed.

Lemma find_snoc {A} (p : A -> bool) (l : list A) (x : A) :
  (forall y, In y l -> p y = false) -> p x = true ->
  find p (l ++ [x]) = Some x.
Proof.
  intros Hl Hx. induction l as [|y l IH]; simpl.
  - rewrite Hx. reflexivity.
  - rewrite (Hl y (or_introl eq_refl)). apply IH. intros z Hz. apply Hl. right. exact Hz.
Qed.

(** X22. Sign-up then sign-in.  After a sign-up that creates the account
    on a store that answers, a sign-in with the nickname and the password
    as they were given is answered 200 with a token for the new account and
    the same sanitized user, provided the nickname has no pattern
    character, differs from what is stored for it in letter case only, no
    other stored nickname matches it, and the password check accepts the
    hash of the password. *)
Theorem signin_after_signup check data now utcnow now' c :
  db_faults c = [] ->
  validate_signup_data data = [] ->
  (forall u, In u (docs c) ->
             nickname u <> lower (data_nickname data)
             /\ whatsapp u <> data_whatsapp data) ->
  Regex.plain (data_nickname data) = true ->
  Regex.eq_ignoring_case (data_nickname data)
                         (lower (strip (data_nickname data))) = true ->
  (forall re, Regex.compile ("^" ++ data_nickname data ++ "$") = Some re ->
              forall v, In v (docs c) -> Regex.search re (nickname v) = false) ->
  check (hash (data_password data)) (data_password data) = true ->
  exists su c1 c2,
    signup lower upper strip hash (Some data) now c
    = (inr (Registered su "Registration successful", 201), c1)
    /\ signin check
              (Some (Credentials (Some (data_nickname data))
                                 (Some (data_password data))))
              utcnow now' c1
       = (inr (SignedIn (TokenPayload (s_id su)
                                      (lower (strip (data_nickname data)))
                                      (utcnow + timedelta_hours 2))
                        su, 200), c2).
Proof.
  intros Hf Hv Hnew Hplain Hcase Hothers Hcheck.
  destruct c as [ds fs]; simpl in Hf, Hnew, Hothers; subst fs.
  destruct (plain_nickname_is_matched_exactly (data_nickname data) Hplain)
    as (re & Hre & Hsearch).
  set (u := with_id (fresh_id _id ds) (new_user lower upper strip hash data now)).
  assert (Hfind : find (fun v => Regex.search re (nickname v)) (ds ++ [u]) = Some u).
  { apply find_snoc; [intros v Hv'; apply (Hothers re Hre v Hv')|].
    apply Hsearch. exists (lower (strip (data_nickname data))), "".
    split; [|split; [exact Hcase|reflexivity]].
    simpl. clear. induction (lower (strip (data_nickname data))) as [|a s IH];
      simpl; congruence. }
  exists (sanitize_user_data u). eexists. eexists. split.
  - apply signup_run; [exact Hv|]. apply no_duplicate_found. exact Hnew.
  - apply (signin_run check _ _ utcnow now' (ds ++ [u]) re u Hre Hfind Hcheck).
Qed.

(** X23. A new account is outside the presence engine until its first
    heartbeat: after a sign-up that creates it on a store that answers, the
    status read of the new identifier answers ['active'] with a null
    [last_seen] and writes nothing, at whatever time and thresholds, and a
    sweep leaves its status ['active']. *)
Theorem new_account_reads_active tok_user cfg now' data now c :
  db_faults c = [] ->
  validate_signup_data data = [] ->
  (forall u, In u (docs c) ->
             nickname u <> lower (data_nickname data)
             /\ whatsapp u <> data_whatsapp data) ->
  exists su c1,
    signup lower upper strip hash (Some data) now c
    = (inr (Registered su "Registration successful", 201), c1)
    /\ get_user_status (ValidToken tok_user) cfg now' (WellFormed (s_id su)) c1
       = (inr (StatusInfo "active" None (Some (strip (data_first_name data)))
                          (Some (upper (data_department data))), 200), c1)
    /\ stored_status (s_id su) (snd (check_user_status cfg now' c1))
       = Some (Some "active").
Proof.
  intros Hf Hv Hnew.
  destruct c as [ds fs]; simpl in Hf, Hnew; subst fs.
  set (u := with_id (fresh_id _id ds) (new_user lower upper strip hash data now)).
  assert (Hu : find (by_id (fresh_id _id ds)) (ds ++ [u]) = Some u)
    by apply find_fresh_id.
  exists (sanitize_user_data u), (Collection (ds ++ [u]) []).
  split; [|split].
  - apply signup_run; [exact Hv|]. apply no_duplicate_found. exact Hnew.
  - apply (read_run_never_active tok_user cfg now' (fresh_id _id ds) (ds ++ [u]) u Hu).
    reflexivity.
  - change (s_id (sanitize_user_data u)) with (fresh_id _id ds).
    rewrite (stored_status_sweep cfg now' (fresh_id _id ds) (Collection (ds ++ [u]) []) u);
      [|reflexivity|exact Hu].
    rewrite sweep_user_never_active; reflexivity.
Qed.

(** The loop of the bulk creation on a store that answers: what it adds to
    the two lists and to the store. *)
Lemma bulk_create_loop_run clock items :
  forall index created skipped ds,
  exists created' skipped' ds',
    bulk_create_loop lower upper strip hash items index clock created skipped
                     (Collection ds [])
    = (inr ((created ++ created')%list, (skipped ++ skipped')%list),
       Collection (ds ++ ds') [])
    /\ (List.length created' + List.length skipped' = List.length items)%nat
    /\ map _id ds' = created'
    /\ (forall s, In s skipped' -> skipped_errors s <> []).
Proof.
  induction items as [|d items IH]; intros index created skipped ds.
  - exists [], [], []. rewrite !app_nil_r. simpl. repeat split. intros s [].
  - cbn [bulk_create_loop].
    destruct (negb (Nat.eqb (List.length (validate_signup_data d)) 0)) eqn:Hv.
    + destruct (IH (S index) created
                   (skipped ++ [Skipped index (data_nickname d)
                                        (validate_signup_data d)])%list ds)
        as (cr & sk & ds' & Hrun & Hlen & Hids & Hsk).
      exists cr, (Skipped index (data_nickname d) (validate_signup_data d) :: sk), ds'.
      rewrite Hrun, <- app_assoc. simpl. repeat split; auto; [lia|].
      intros s [<-|Hs]; [|auto]. simpl.
      destruct (validate_signup_data d); [discriminate|discriminate].
    + unfold bind at 1. unfold user_exists, find_one.
      rewrite db_call_healthy. cbn [fst snd].
      destruct (find _ ds) as [u|].
      * destruct (IH (S index) created
                     (skipped ++ [Skipped index (data_nickname d)
                                          ["User already exists"]])%list ds)
          as (cr & sk & ds' & Hrun & Hlen & Hids & Hsk).
        exists cr, (Skipped index (data_nickname d) ["User already exists"] :: sk), ds'.
        rewrite Hrun, <- app_assoc. simpl. repeat split; auto; [lia|].
        intros s [<-|Hs]; [discriminate|auto].
      * unfold bind at 1. unfold create_user, insert_one.
        rewrite db_call_healthy. cbn [fst snd].
        set (u := with_id (fresh_id _id ds)
                          (new_user lower upper strip hash d (clock index))).
        destruct (IH (S index) (created ++ [fresh_id _id ds])%list skipped (ds ++ [u])%list)
          as (cr & sk & ds' & Hrun & Hlen & Hids & Hsk).
        exists (fresh_id _id ds :: cr), sk, (u :: ds').
        rewrite Hrun, <- !app_assoc. simpl. rewrite Hids.
        repeat split; auto; lia.
Qed.

(** X24. A bulk creation over a non-empty list on a store that answers is
    answered 201; every item is either created or skipped, so the two counts
    add up to the number of items; the identifiers reported are those of the
    documents appended to the store, in order; and every skipped entry
    carries at least one error. *)
Theorem bulk_create_accounts_for_every_item items clock c :
  db_faults c = [] ->
  items <> [] ->
  exists created skipped added,
    bulk_create_users lower upper strip hash (Some items) clock c
    = (inr (BulkCreated (List.length created) (List.length skipped)
                        created skipped, 201),
       Collection (docs c ++ added) [])
    /\ (List.length created + List.length skipped = List.length items)%nat
    /\ map _id added = created
    /\ (forall s, In s skipped -> skipped_errors s <> []).
Proof.
  destruct c as [ds fs]; simpl; intros -> Hne.
  destruct (bulk_create_loop_run clock items 1%nat [] [] ds)
    as (cr & sk & ds' & Hrun & Hlen & Hids & Hsk).
  exists cr, sk, ds'. split; [|auto].
  unfold bulk_create_users, try_except, bind.
  destruct items as [|d items]; [contradiction|].
  rewrite Hrun. reflexivity.
Qed.
End SignupFacts.

Lemma bulk_create_accounts_for_every_item_witness :
  exists created skipped added,
    bulk_create_users Samples.lower Samples.upper Samples.strip
                      Samples.generate_password_hash
                      (Some [Samples.newcomer "bola" "08011112222";
                             Samples.newcomer "BOLA" "08011113333"])
                      (fun n => Z.of_nat n) (Samples.only Samples.john)
    = (inr (BulkCreated (List.length created) (List.length skipped)
                        created skipped, 201),
       Collection (docs (Samples.only Samples.john) ++ added) [])
    /\ (List.length created + List.length skipped
        = List.length [Samples.newcomer "bola" "08011112222";
                       Samples.newcomer "BOLA" "08011113333"])%nat
    /\ map _id added = created
    /\ (forall s, In s skipped -> skipped_errors s <> []).
Proof.
  apply (bulk_create_accounts_for_every_item Samples.lower Samples.upper
           Samples.strip Samples.generate_password_hash
           [Samples.newcomer "bola" "08011112222";
            Samples.newcomer "BOLA" "08011113333"]
           (fun n => Z.of_nat n) (Samples.only Samples.john)).
  - reflexivity.
  - discriminate.
Defined.

Lemma signin_after_signup_witness :
  exists su c1 c2,
    signup Samples.lower Samples.upper Samples.strip Samples.generate_password_hash
           (Some (Samples.newcomer "Bola" "08011112222")) 7
           (Samples.only Samples.john)
    = (inr (Registered su "Registration successful", 201), c1)
    /\ signin Samples.check_password_hash
              (Some (Credentials (Some "Bola") (Some "correct horse"))) 8 9 c1
       = (inr (SignedIn (TokenPayload (s_id su) "bola" (8 + timedelta_hours 2))
                        su, 200), c2).
Proof.
  apply (signin_after_signup Samples.lower Samples.upper Samples.strip
           Samples.generate_password_hash Samples.check_password_hash
           (Samples.newcomer "Bola" "08011112222") 7 8 9
           (Samples.only Samples.john)).
  - reflexivity.
  - reflexivity.
  - simpl. intros u [<-|[]]. vm_compute. split; discriminate.
  - reflexivity.
  - reflexivity.
  - intros re Hre v Hv. vm_compute in Hre. injection Hre as <-.
    simpl in Hv. destruct Hv as [<-|[]]. reflexivity.
  - reflexivity.
Defined.

Lemma new_account_reads_active_witness :
  exists su c1,
    signup Samples.lower Samples.upper Samples.strip Samples.generate_password_hash
           (Some (Samples.newcomer "Bola" "08011112222")) 7
           (Samples.only Samples.john)
    = (inr (Registered su "Registration successful", 201), c1)
    /\ get_user_status (ValidToken (WellFormed 2)) Samples.cfg
                       (timedelta_days 400) (WellFormed (s_id su)) c1
       = (inr (StatusInfo "active" None (Some "Bola") (Some "CSC"), 200), c1)
    /\ stored_status (s_id su)
         (snd (check_user_status Samples.cfg (timedelta_days 400) c1))
       = Some (Some "active").
Proof.
  apply (new_account_reads_active Samples.lower Samples.upper Samples.strip
           Samples.generate_password_hash (WellFormed 2) Samples.cfg
           (timedelta_days 400) (Samples.newcomer "Bola" "08011112222") 7
           (Samples.only Samples.john)).
  - reflexivity.
  - reflexivity.
  - simpl. intros u [<-|[]]. vm_compute. split; discriminate.
Defined.

Lemma signup_keeps_numbers_and_nicknames_distinct_witness :
  NoDup (map whatsapp
           (docs (snd (signup Samples.lower Samples.upper Samples.strip
                              Samples.generate_password_hash
                              (Some (Samples.newcomer "bola" "08011112222")) 7
                              (Samples.only Samples.john)))))
  /\ ((forall d, Some (Samples.newcomer "bola" "08011112222") = Some d ->
                 Samples.lower (Samples.strip (data_nickname d))
                 = Samples.lower (data_nickname d)) ->
      NoDup (map nickname
               (docs (snd (signup Samples.lower Samples.upper Samples.strip
                                  Samples.generate_password_hash
                                  (Some (Samples.newcomer "bola" "08011112222")) 7
                                  (Samples.only Samples.john)))))).
Proof.
  apply (signup_keeps_numbers_and_nicknames_distinct Samples.lower Samples.upper
           Samples.strip Samples.generate_password_hash
           (Some (Samples.newcomer "bola" "08011112222")) 7
           (Samples.only Samples.john)).
  - simpl. constructor; [simpl; tauto|constructor].
  - simpl. constructor; [simpl; tauto|constructor].
Defined.

Lemma signup_misses_a_padded_nickname_witness :
  exists u' c',
    signup Samples.lower Samples.upper Samples.strip Samples.generate_password_hash
           (Some (Samples.newcomer " John" "08011112222")) 7
           (Samples.only Samples.john)
    = (inr (Registered (sanitize_user_data u') "Registration successful", 201), c')
    /\ In Samples.john (docs c') /\ In u' (docs c')
    /\ _id u' <> _id Samples.john
    /\ nickname u' = nickname Samples.john.
Proof.
  apply (signup_misses_a_padded_nickname Samples.lower Samples.upper Samples.strip
           Samples.generate_password_hash
           (Samples.newcomer " John" "08011112222") 7
           (Samples.only Samples.john) Samples.john).
  - reflexivity.
  - reflexivity.
  - simpl. auto.
  - reflexivity.
  - simpl. intros v [<-|[]]. vm_compute. split; discriminate.
Defined.

Lemma refused_signup_stores_nothing_witness :
  docs (Samples.only Samples.john) = docs (Samples.only Samples.john).
Proof.
  apply (refused_signup_stores_nothing Samples.lower Samples.upper Samples.strip
           Samples.generate_password_hash
           (Some (Samples.newcomer "JOHN" "08011112222")) 7
           (Samples.only Samples.john)
           (Refused "User already exists", 400) (Samples.only Samples.john)).
  - reflexivity.
  - reflexivity.
Defined.

Lemma signup_may_fail_after_storing_witness :
  signup Samples.lower Samples.upper Samples.strip Samples.generate_password_hash
         (Some (Samples.newcomer "bola" "08011112222")) 7
         (Collection [Samples.john] [false; false; true])
  = (inr (Refused (str PyMongoError), 500),
     Collection ([Samples.john] ++
                 [with_id (fresh_id _id [Samples.john])
                    (new_user Samples.lower Samples.upper Samples.strip
                              Samples.generate_password_hash
                              (Samples.newcomer "bola" "08011112222") 7)]) []).
Proof.
  apply (signup_may_fail_after_storing Samples.lower Samples.upper Samples.strip
           Samples.generate_password_hash
           (Samples.newcomer "bola" "08011112222") 7 [Samples.john] []);
    reflexivity.
Defined.


Lemma remove_first_split {D} (p : D -> bool) l1 u l2 :
  p u = true -> (forall x, In x l1 -> p x = false) ->
  remove_first p (l1 ++ u :: l2) = (l1 ++ l2)%list.
Proof.
  intros Hu. induction l1 as [|x l1 IH]; simpl; intros Hl.
  - rewrite Hu. reflexivity.
  - rewrite (Hl x (or_introl eq_refl)). f_equal. apply IH. auto.
Qed.

Lemma find_app_none {A} (p : A -> bool) (l1 l2 : list A) :
  find p l1 = None -> find p (l1 ++ l2) = find p l2.
Proof.
  induction l1 as [|x l1 IH]; simpl; [reflexivity|].
  destruct (p x); [discriminate|exact IH].
Qed.

Lemma find_none_iff {A} (p : A -> bool) (l : list A) :
  find p l = None <-> forall x, In x l -> p x = false.
Proof.
  split; [apply find_none|].
  induction l as [|x l IH]; simpl; intros H; [reflexivity|].
  rewrite (H x (or_introl eq_refl)). apply IH. auto.
Qed.

Lemma find_without_other {A} (q : A -> bool) (l1 l2 : list A) (u : A) :
  q u = false -> find q (l1 ++ u :: l2) = find q (l1 ++ l2).
Proof.
  intros Hq. induction l1 as [|x l1 IH]; simpl.
  - rewrite Hq. reflexivity.
  - destruct (q x); [reflexivity|exact IH].
Qed.

Lemma delete_user_run i ds :
  delete_user (WellFormed i) (Collection ds [])
  = (inr (match find (by_id i) ds with
          | Some _ => (Removed "User deleted successfully", 200)
          | None => (Refused "User not found", 404)
          end),
     Collection (remove_first (by_id i) ds) []).
Proof.
  unfold delete_user, try_except, bind, ObjectId, delete_one, ret.
  cbn [ObjectId_is_valid negb]. rewrite db_call_healthy. cbn [fst snd].
  destruct (find (by_id i) ds); reflexivity.
Qed.

Lemma remove_first_none {D} (p : D -> bool) (ds : list D) :
  find p ds = None -> remove_first p ds = ds.
Proof.
  induction ds as [|d ds IH]; simpl; [reflexivity|].
  destruct (p d); [discriminate|]. intros H. rewrite (IH H). reflexivity.
Qed.

(** X25. Deleting a stored user on a store that answers, identifiers being
    distinct: the request is answered 200, the user can no longer be looked
    up while every other user can, a status read of that identifier is then
    answered 404, and deleting it again is answered 404 and changes
    nothing. *)
Theorem delete_user_removes_the_account tok_user cfg now i c u :
  db_faults c = [] ->
  lookup _id i c = Some u ->
  NoDup (map _id (docs c)) ->
  exists c',
    delete_user (WellFormed i) c
    = (inr (Removed "User deleted successfully", 200), c')
    /\ lookup _id i c' = None
    /\ (forall j, j <> i -> lookup _id j c' = lookup _id j c)
    /\ get_user_status (ValidToken tok_user) cfg now (WellFormed i) c'
       = (inr (Err "User not found", 404), c')
    /\ delete_user (WellFormed i) c'
       = (inr (Refused "User not found", 404), c').
Proof.
  intros Hf Hu Hnd.
  destruct c as [ds fs]; unfold lookup in Hu; simpl in Hf, Hu, Hnd; subst fs.
  destruct (find_split _ _ _ Hu) as (l1 & l2 & -> & Hp & Hl).
  assert (Hgone : find (by_id i) (l1 ++ l2) = None).
  { apply find_none_iff. intros x Hx. apply by_id_user_false_iff. intros Hid.
    rewrite map_app in Hnd. simpl in Hnd. apply NoDup_remove_2 in Hnd.
    apply in_app_or in Hx. destruct Hx as [Hx|Hx].
    - pose proof (Hl x Hx) as Hfalse. unfold has_id in Hfalse.
      apply Nat.eqb_neq in Hfalse. contradiction.
    - apply Hnd. apply in_or_app. right.
      unfold has_id in Hp. apply Nat.eqb_eq in Hp. rewrite Hp, <- Hid.
      apply in_map. exact Hx. }
  exists (Collection (l1 ++ l2) []).
  split; [|split; [|split; [|split]]].
  - rewrite delete_user_run. unfold by_id. rewrite Hu.
    rewrite (remove_first_split (has_id _id i) l1 u l2 Hp Hl). reflexivity.
  - exact Hgone.
  - intros j Hj. unfold lookup; simpl. symmetry.
    apply find_without_other.
    unfold has_id in *. apply Nat.eqb_eq in Hp. apply Nat.eqb_neq. congruence.
  - apply read_run_unknown. exact Hgone.
  - rewrite delete_user_run, Hgone. rewrite (remove_first_none _ _ Hgone).
    reflexivity.
Qed.

Lemma delete_user_removes_the_account_witness :
  exists c',
    delete_user (WellFormed 2) (Collection [Samples.ada "online"; Samples.john] [])
    = (inr (Removed "User deleted successfully", 200), c')
    /\ lookup _id 2 c' = None
    /\ (forall j, j <> 2%nat ->
                  lookup _id j c'
                  = lookup _id j (Collection [Samples.ada "online"; Samples.john] []))
    /\ get_user_status (ValidToken (WellFormed 1)) Samples.cfg 5 (WellFormed 2) c'
       = (inr (Err "User not found", 404), c')
    /\ delete_user (WellFormed 2) c'
       = (inr (Refused "User not found", 404), c').
Proof.
  apply (delete_user_removes_the_account (WellFormed 1) Samples.cfg 5 2%nat
           (Collection [Samples.ada "online"; Samples.john] []) Samples.john).
  - reflexivity.
  - reflexivity.
  - simpl. repeat constructor; simpl; intuition discriminate.
Defined.

(** X26. Whatever the faults of the store, a request to delete a user with
    a malformed identifier is answered 400 without any call to the store,
    and a request not answered 200 removes nothing. *)
Theorem refused_delete_user_removes_nothing id c r c' :
  delete_user id c = (inr r, c') ->
  (id = Malformed -> r = (Refused "Invalid user ID", 400) /\ c' = c)
  /\ (snd r <> 200 -> docs c' = docs c).
Proof.
  destruct c as [ds fs]. destruct id as [i|].
  - unfold delete_user, try_except, bind, ObjectId, delete_one, ret, db_call.
    cbn [ObjectId_is_valid negb].
    destruct fs as [|[|] fs]; simpl;
      try (intros [= <- <-]; split; [discriminate|reflexivity]);
      (destruct (find (by_id i) ds) as [u|] eqn:Hu; simpl; intros [= <- <-];
       (split; [discriminate|]); intros Hcode;
       [simpl in Hcode; congruence|apply (remove_first_none _ _ Hu)]).
  - intros [= <- <-]. split; [auto|reflexivity].
Qed.

Lemma refused_delete_user_removes_nothing_witness :
  (Malformed = Malformed ->
   (Refused "Invalid user ID", 400) = (Refused "Invalid user ID", 400)
   /\ Samples.only Samples.john = Samples.only Samples.john)
  /\ (snd (Refused "Invalid user ID", 400) <> 200 ->
      docs (Samples.only Samples.john) = docs (Samples.only Samples.john)).
Proof.
  apply (refused_delete_user_removes_nothing Malformed (Samples.only Samples.john)
           (Refused "Invalid user ID", 400) (Samples.only Samples.john)).
  reflexivity.
Defined.
End AccountFacts.

(** ** Listings: assets and cascading delete *)

Section WearMore.
Import FacultyWear.

Lemma db_call_cases {D A} (op : list D -> A * list D) (c : collection D) :
  (exists fs', db_call op c = (inl PyMongoError, Collection (docs c) fs'))
  \/ (exists fs', db_call op c
                  = (inr (fst (op (docs c))), Collection (snd (op (docs c))) fs')).
Proof.
  destruct c as [ds [|[|] fs]].
  - right. exists []. apply db_call_healthy.
  - left. exists fs. apply db_call_raises.
  - right. exists fs. apply db_call_answers.
Qed.

(** The asset step of [delete_wear] returns and leaves the store alone. *)
Lemma asset_step cloud (w : wear) (s : collection wear) :
  (if truthy (image_url w) && contains "cloudinary.com" (get (image_url w) "")
   then bind (delete_from_cloudinary cloud (image_url w)) (fun _ => ret tt)
   else ret tt) s
  = (inr tt, s).
Proof.
  destruct (truthy (image_url w) && _)%bool; [|reflexivity].
  unfold bind. destruct (delete_from_cloudinary_answers cloud (image_url w) s)
    as (b & ->). reflexivity.
Qed.

(** [delete_wear] with the asset step resolved. *)
Lemma delete_wear_run cloud i c :
  delete_wear cloud (WellFormed i) c
  = match find_one (by_id i) c with
    | (inl e, c1) => (inr (StatusError "Failed to delete product", 500), c1)
    | (inr None, c1) => (inr (StatusError "Product not found", 404), c1)
    | (inr (Some _), c1) =>
        match delete_one (by_id i) c1 with
        | (inl e, c2) => (inr (StatusError "Failed to delete product", 500), c2)
        | (inr O, c2) => (inr (StatusError "Product not found", 404), c2)
        | (inr (S _), c2) =>
            (inr (StatusSuccess "Product deleted successfully", 200), c2)
        end
    end.
Proof.
  unfold delete_wear, try_except. cbn [ObjectId_is_valid negb].
  unfold bind at 1. unfold ObjectId, ret at 1. unfold bind at 1.
  assert (Hexn : forall e c1, find_one (by_id i) c = (inl e, c1) -> e = PyMongoError).
  { intros e c1 H. unfold find_one in H.
    destruct (db_call_cases (fun ds => (find (by_id i) ds, ds)) c)
      as [(fs' & Hc)|(fs' & Hc)]; rewrite Hc in H; congruence. }
  destruct (find_one (by_id i) c) as [[e|[w|]] c1] eqn:Hfind.
  - rewrite (Hexn e c1 eq_refl). reflexivity.
  - unfold bind at 1. rewrite asset_step. unfold bind at 1.
    assert (Hexn2 : forall e c2, delete_one (by_id i) c1 = (inl e, c2) ->
                                 e = PyMongoError).
    { intros e c2 H. unfold delete_one in H.
      destruct (db_call_cases
                  (fun ds => (match find (by_id i) ds with
                              | Some _ => 1%nat | None => 0%nat end,
                              remove_first (by_id i) ds)) c1)
        as [(fs' & Hc)|(fs' & Hc)]; rewrite Hc in H; congruence. }
    destruct (delete_one (by_id i) c1) as [[e|[|n]] c2] eqn:Hdel.
    + rewrite (Hexn2 e c2 eq_refl). reflexivity.
    + reflexivity.
    + reflexivity.
  - reflexivity.
Qed.

(** X27. Whatever the asset store and the faults of the store, the answer
    to a listing delete and the store it leaves do not depend on the asset
    store; the request either is answered 200 and removes the first document
    of that identifier, or is answered otherwise and removes nothing. *)
Theorem delete_wear_ignores_the_asset_store cloud cloud' id c :
  delete_wear cloud id c = delete_wear cloud' id c
  /\ exists r c',
      delete_wear cloud id c = (inr r, c')
      /\ ((snd r = 200
           /\ exists i, id = WellFormed i
                        /\ docs c' = remove_first (by_id i) (docs c))
          \/ (snd r <> 200 /\ docs c' = docs c)).
Proof.
  destruct id as [i|].
  - split; [rewrite !delete_wear_run; reflexivity|].
    rewrite delete_wear_run. unfold find_one, delete_one.
    destruct (db_call_cases (fun ds => (find (by_id i) ds, ds)) c)
      as [(fs1 & ->)|(fs1 & ->)]; cbn [fst snd].
    + eexists. eexists. split; [reflexivity|]. right. split; [discriminate|reflexivity].
    + destruct (find (by_id i) (docs c)) as [w|] eqn:Hw.
      * destruct (db_call_cases
                    (fun ds => (match find (by_id i) ds with
                                | Some _ => 1%nat | None => 0%nat end,
                                remove_first (by_id i) ds))
                    (Collection (docs c) fs1))
          as [(fs2 & ->)|(fs2 & ->)]; cbn [fst snd docs].
        -- eexists. eexists. split; [reflexivity|].
           right. split; [discriminate|reflexivity].
        -- rewrite Hw. eexists. eexists. split; [reflexivity|].
           left. split; [reflexivity|]. exists i. split; reflexivity.
      * eexists. eexists. split; [reflexivity|].
        right. split; [discriminate|reflexivity].
  - split; [reflexivity|]. eexists. eexists. split; [reflexivity|].
    right. split; [discriminate|reflexivity].
Qed.

Lemma split_nonempty sep s : split sep s <> [].
Proof.
  destruct s as [|c s]; simpl; [discriminate|].
  destruct (Ascii.eqb c sep); [discriminate|].
  destruct (split sep s); discriminate.
Qed.

Lemma split_no_separator sep s : has_no sep s = true -> split sep s = [s].
Proof.
  unfold has_no. induction s as [|c s IH]; simpl; [reflexivity|].
  intros H. apply Bool.andb_true_iff in H. destruct H as [Hc Hs].
  apply Bool.negb_true_iff in Hc. rewrite Hc, (IH Hs). reflexivity.
Qed.

Lemma split_at_separator sep a b :
  split sep (a ++ String sep b) = (split sep a ++ split sep b)%list.
Proof.
  induction a as [|c a IH]; simpl.
  - rewrite Ascii.eqb_refl. reflexivity.
  - destruct (Ascii.eqb c sep); rewrite IH; [reflexivity|].
    destruct (split sep a) as [|x r] eqn:E; [|reflexivity].
    exfalso. exact (split_nonempty sep a E).
Qed.

(** X28. For a Cloudinary URL ending in [/folder/name.ext], where [folder]
    is not [upload] and [name] holds neither a slash nor a dot, the asset
    deleted is the one with public identifier [folder/name], and the result
    is [True] exactly when the asset store answers ['ok']; an asset-store
    failure is returned as [False]. *)
Theorem delete_from_cloudinary_derives_the_public_id {S}
        cloud base folder name ext (s : S) :
  contains "cloudinary.com"
           (base ++ "/" ++ folder ++ "/" ++ name ++ "." ++ ext) = true ->
  has_no "/" folder = true ->
  folder <> "" ->
  folder <> "upload" ->
  has_no "/" name = true ->
  has_no "." name = true ->
  has_no "/" ext = true ->
  delete_from_cloudinary cloud
    (Some (base ++ "/" ++ folder ++ "/" ++ name ++ "." ++ ext)) s
  = (inr (match uploader_destroy cloud (folder ++ "/" ++ name) with
          | DestroyResult result => String.eqb result "ok"
          | DestroyRaises => false
          end), s).
Proof.
  intros Hc Hf Hfne Hfup Hn Hnd He.
  set (url := base ++ "/" ++ folder ++ "/" ++ name ++ "." ++ ext) in *.
  assert (Hlast : split "/" (name ++ "." ++ ext) = [name ++ "." ++ ext]).
  { apply split_no_separator. unfold has_no in *.
    rewrite list_ascii_of_string_app, forallb_app, Hn. simpl. exact He. }
  assert (Hparts : rev (split "/" url)
                   = (name ++ "." ++ ext) :: folder :: rev (split "/" base)).
  { unfold url. change (base ++ "/" ++ folder ++ "/" ++ name ++ "." ++ ext)
      with (base ++ String "/" (folder ++ String "/" (name ++ "." ++ ext))).
    rewrite !split_at_separator, Hlast, (split_no_separator "/" folder Hf).
    rewrite !rev_app_distr. reflexivity. }
  assert (Hstem : hd "" (split "." (name ++ "." ++ ext)) = name).
  { change (name ++ "." ++ ext) with (name ++ String "." ext).
    rewrite split_at_separator, (split_no_separator "." name Hnd). reflexivity. }
  assert (Hurl : truthy (Some url) = true).
  { unfold truthy. destruct url eqn:E; [discriminate Hc|reflexivity]. }
  unfold delete_from_cloudinary, try_except, bind, from_end, destroy, ret, raise.
  rewrite Hurl, Hc. cbn [negb orb]. rewrite Hparts. cbn [nth_error Nat.sub].
  rewrite Hstem.
  destruct (String.eqb_spec folder "upload") as [E|_]; [contradiction|].
  assert (Htf : truthy (Some folder) = true).
  { unfold truthy. destruct (String.eqb_spec folder ""); [contradiction|reflexivity]. }
  rewrite Htf. cbn [get].
  destruct (uploader_destroy cloud (folder ++ "/" ++ name)); reflexivity.
Qed.

Lemma delete_from_cloudinary_derives_the_public_id_witness :
  delete_from_cloudinary Samples.cloud_up
    (Some ("https://res.cloudinary.com/demo/image/upload/v1" ++ "/"
           ++ "faculty_wear" ++ "/" ++ "shirt" ++ "." ++ "jpg")) tt
  = (inr (match uploader_destroy Samples.cloud_up ("faculty_wear" ++ "/" ++ "shirt") with
          | DestroyResult result => String.eqb result "ok"
          | DestroyRaises => false
          end), tt).
Proof.
  apply (delete_from_cloudinary_derives_the_public_id Samples.cloud_up
           "https://res.cloudinary.com/demo/image/upload/v1"
           "faculty_wear" "shirt" "jpg" tt).
  - reflexivity.
  - reflexivity.
  - discriminate.
  - discriminate.
  - reflexivity.
  - reflexivity.
  - reflexivity.
Defined.

(** X29. [delete_from_cloudinary] never raises and touches no state; for
    a missing URL, and for one that does not contain [cloudinary.com] (the
    empty one included), it returns [False] whatever the asset store. *)
Theorem delete_from_cloudinary_is_best_effort {S} cloud (s : S) :
  (forall url, exists b, delete_from_cloudinary cloud url s = (inr b, s))
  /\ delete_from_cloudinary cloud None s = (inr false, s)
  /\ (forall url, contains "cloudinary.com" url = false ->
                  delete_from_cloudinary cloud (Some url) s = (inr false, s)).
Proof.
  split; [|split].
  - intros url. apply delete_from_cloudinary_answers.
  - reflexivity.
  - intros url Hc. unfold delete_from_cloudinary, try_except.
    rewrite Hc. cbn [negb]. rewrite Bool.orb_true_r. reflexivity.
Qed.

Lemma upload_to_cloudinary_run {S} cloud file (s : S) :
  upload_to_cloudinary cloud file s
  = (if negb (String.prefix "image/" (content_type file))
     then inl (BadRequest "Only image files are allowed")
     else if 10485760 <? file_size file
     then inl (BadRequest "Image size must be less than 10MB")
     else match uploader_upload cloud file "faculty_wear" with
          | UploadRaises => inl (BadRequest "Failed to upload image to Cloudinary")
          | Uploaded secure_url _ => inr secure_url
          end,
     s).
Proof.
  unfold upload_to_cloudinary, try_except, bind, upload, raise, ret.
  destruct (negb (String.prefix "image/" (content_type file))); [reflexivity|].
  change (10 * 1024 * 1024) with 10485760.
  destruct (10485760 <? file_size file); [reflexivity|].
  destruct (uploader_upload cloud file "faculty_wear"); reflexivity.
Qed.

(** X30. An upload that returns a URL went through both checks: the
    content type of the file starts with [image/], its size is at most
    10485760 bytes (a file of exactly that size passes), and the URL is the
    one the asset store answered for the folder [faculty_wear]; and whatever
    goes wrong, the only exception that comes out is a [BadRequest]. *)
Theorem upload_to_cloudinary_checks_the_file {S} cloud file (s s' : S) outcome :
  upload_to_cloudinary cloud file s = (outcome, s') ->
  s' = s
  /\ match outcome with
     | inr url =>
         String.prefix "image/" (content_type file) = true
         /\ file_size file <= 10485760
         /\ exists public_id,
              uploader_upload cloud file "faculty_wear" = Uploaded url public_id
     | inl e => exists msg, e = BadRequest msg
     end.
Proof.
  rewrite upload_to_cloudinary_run.
  destruct (String.prefix "image/" (content_type file)); cbn [negb];
    [|intros [= <- <-]; split; [reflexivity|eauto]].
  destruct (Z.ltb_spec 10485760 (file_size file));
    [intros [= <- <-]; split; [reflexivity|eauto]|].
  destruct (uploader_upload cloud file "faculty_wear") as [|url pid];
    intros [= <- <-]; split; try reflexivity; eauto.
Qed.

Lemma upload_to_cloudinary_checks_the_file_witness :
  tt = tt
  /\ (String.prefix "image/" (content_type (FileStorage "a.png" "image/png" 10485760))
      = true
      /\ file_size (FileStorage "a.png" "image/png" 10485760) <= 10485760
      /\ exists public_id,
           uploader_upload Samples.cloud_up
             (FileStorage "a.png" "image/png" 10485760) "faculty_wear"
           = Uploaded "https://res.cloudinary.com/demo/up.png" public_id).
Proof.
  apply (upload_to_cloudinary_checks_the_file Samples.cloud_up
           (FileStorage "a.png" "image/png" 10485760) tt tt
           (inr "https://res.cloudinary.com/demo/up.png")).
  reflexivity.
Defined.
End WearMore.
